(** * Smart News Aggregator: the scraper service, verified against its design notes

    A shallow embedding of the ingestion core of [scraper_service]:

    - [app/config.py]                 the [Settings] object and the module helpers,
    - [app/scrapers/base_scraper.py]  [Article], [BaseScraper.fetch_page], [clean_text],
                                      [is_recent], [run],
    - [app/scrapers/rss_scraper.py]   [RSSFeedScraper.scrape] and [_parse_entry],
    - [app/scrapers/api_scraper.py]   [NewsAPIScraper._parse_api_article],
    - [app/tasks/scraping_tasks.py]   [send_articles_to_backend], [deduplicate_articles].

    Conventions.  A Python [str] is a [string]; its characters are the code
    points 0..255, so [str.isspace], [str.lower] and the UTF-8 encoder are the
    restrictions of Python's to that range.  A [datetime] is an integer count
    of microseconds, a [timedelta] likewise.  Durations handed to [time.sleep]
    are rationals.  Code that raises returns a [result]; code that talks to the
    network or sleeps threads a [World] that records what happened. *)

From Stdlib Require Import ZArith QArith List String Ascii Bool Lia Lqa.
From stdpp Require Import base decidable strings gmap sorting.
From Equations Require Import Equations.
Import ListNotations.

Local Open Scope string_scope.
Local Open Scope list_scope.

(** ** Exceptions and results *)

Inductive exn : Type :=
| AttributeError
| TypeError
| ValueError
| RequestException      (* requests.RequestException and its subclasses *)
| HTTPError             (* httpx.HTTPError and its subclasses *)
| Retry (countdown : Z). (* celery.exceptions.Retry, as raised by self.retry *)

Inductive result (A : Type) : Type :=
| Ok (a : A)
| Raise (e : exn).
Arguments Ok {A} a.
Arguments Raise {A} e.

Definition bind {A B} (r : result A) (k : A -> result B) : result B :=
  match r with
  | Ok a => k a
  | Raise e => Raise e
  end.

Notation "x <- r ;; k" := (bind r (fun x => k))
  (at level 100, r at next level, right associativity).

(** ** Python strings *)

Module Str.

Definition code (c : ascii) : N := N_of_ascii c.

(** [str.isspace] on one character, for the code points below 256. *)
Definition isspace (c : ascii) : bool :=
  let n := code c in
  ((9 <=? n) && (n <=? 13) || (28 <=? n) && (n <=? 32)
   || (n =? 133) || (n =? 160))%N.

(** [str.lower] on one character, for the code points below 256. *)
Definition lower_char (c : ascii) : ascii :=
  let n := code c in
  if ((65 <=? n) && (n <=? 90)
      || (192 <=? n) && (n <=? 222) && negb (n =? 215))%N
  then ascii_of_N (n + 32) else c.

Fixpoint lower (s : string) : string :=
  match s with
  | EmptyString => EmptyString
  | String c s' => String (lower_char c) (lower s')
  end.

Definition is_empty (s : string) : bool :=
  match s with EmptyString => true | _ => false end.

(** [text.split()]: the maximal runs of non-whitespace characters.  [w]
    is the run read so far. *)
Fixpoint split_from (w : string) (s : string) : list string :=
  match s with
  | EmptyString => if is_empty w then [] else [w]
  | String c s' =>
      if isspace c
      then (if is_empty w then split_from "" s' else w :: split_from "" s')
      else split_from (w ++ String c "") s'
  end.

Definition split (s : string) : list string := split_from "" s.

(** [sep.join(ws)] *)
Fixpoint join (sep : string) (ws : list string) : string :=
  match ws with
  | [] => ""
  | [w] => w
  | w :: ws' => w ++ sep ++ join sep ws'
  end.

Fixpoint lstrip (s : string) : string :=
  match s with
  | EmptyString => EmptyString
  | String c s' => if isspace c then lstrip s' else s
  end.

Fixpoint rstrip (s : string) : string :=
  match s with
  | EmptyString => EmptyString
  | String c s' =>
      let r := rstrip s' in
      if is_empty r && isspace c then EmptyString else String c r
  end.

Definition strip (s : string) : string := rstrip (lstrip s).

(** [s.replace(old, new)] for a non-empty [old]: occurrences are replaced
    from the left and do not overlap.  [skip] counts the characters of a
    matched occurrence still to be passed over. *)
Fixpoint replace_from (old new : string) (skip : nat) (s : string) : string :=
  match s with
  | EmptyString => EmptyString
  | String c s' =>
      match skip with
      | S k => replace_from old new k s'
      | O =>
          if String.prefix old s
          then new ++ replace_from old new (String.length old - 1) s'
          else String c (replace_from old new 0 s')
      end
  end.

Definition replace (old new s : string) : string := replace_from old new 0 s.

(** [needle in haystack] *)
Fixpoint contains (needle haystack : string) : bool :=
  String.prefix needle haystack
  || match haystack with
     | EmptyString => false
     | String _ h' => contains needle h'
     end.

(** [s.encode('utf-8')], as a list of byte values. *)
Definition utf8_char (c : ascii) : list Z :=
  let n := Z.of_N (code c) in
  if (n <? 128)%Z then [n]
  else [Z.lor 192 (Z.shiftr n 6); Z.lor 128 (Z.land n 63)].

Fixpoint encode_utf8 (s : string) : list Z :=
  match s with
  | EmptyString => []
  | String c s' => utf8_char c ++ encode_utf8 s'
  end.

End Str.

(** ** [hashlib.md5] (RFC 1321) on 32-bit words kept in [Z] *)

Module MD5.
Local Open Scope Z_scope.

Definition wrap32 (x : Z) : Z := x mod 2 ^ 32.
Definition add32 (a b : Z) : Z := wrap32 (a + b).
Definition not32 (x : Z) : Z := Z.lxor x 0xFFFFFFFF.
Definition rotl32 (x : Z) (c : Z) : Z :=
  wrap32 (Z.lor (Z.shiftl x c) (Z.shiftr x (32 - c))).

Definition K : list Z :=
  [ 0xd76aa478; 0xe8c7b756; 0x242070db; 0xc1bdceee;
    0xf57c0faf; 0x4787c62a; 0xa8304613; 0xfd469501;
    0x698098d8; 0x8b44f7af; 0xffff5bb1; 0x895cd7be;
    0x6b901122; 0xfd987193; 0xa679438e; 0x49b40821;
    0xf61e2562; 0xc040b340; 0x265e5a51; 0xe9b6c7aa;
    0xd62f105d; 0x02441453; 0xd8a1e681; 0xe7d3fbc8;
    0x21e1cde6; 0xc33707d6; 0xf4d50d87; 0x455a14ed;
    0xa9e3e905; 0xfcefa3f8; 0x676f02d9; 0x8d2a4c8a;
    0xfffa3942; 0x8771f681; 0x6d9d6122; 0xfde5380c;
    0xa4beea44; 0x4bdecfa9; 0xf6bb4b60; 0xbebfbc70;
    0x289b7ec6; 0xeaa127fa; 0xd4ef3085; 0x04881d05;
    0xd9d4d039; 0xe6db99e5; 0x1fa27cf8; 0xc4ac5665;
    0xf4292244; 0x432aff97; 0xab9423a7; 0xfc93a039;
    0x655b59c3; 0x8f0ccc92; 0xffeff47d; 0x85845dd1;
    0x6fa87e4f; 0xfe2ce6e0; 0xa3014314; 0x4e0811a1;
    0xf7537e82; 0xbd3af235; 0x2ad7d2bb; 0xeb86d391 ].

Definition S : list Z :=
  [ 7; 12; 17; 22; 7; 12; 17; 22; 7; 12; 17; 22; 7; 12; 17; 22;
    5;  9; 14; 20; 5;  9; 14; 20; 5;  9; 14; 20; 5;  9; 14; 20;
    4; 11; 16; 23; 4; 11; 16; 23; 4; 11; 16; 23; 4; 11; 16; 23;
    6; 10; 15; 21; 6; 10; 15; 21; 6; 10; 15; 21; 6; 10; 15; 21 ].

Definition nthZ (l : list Z) (i : Z) : Z := nth (Z.to_nat i) l 0.

(** The message followed by the bit 1, zeros up to 56 modulo 64 bytes, and
    the bit length as a 64-bit little-endian integer. *)
Definition le_bytes (n : nat) (x : Z) : list Z :=
  map (fun i => Z.land (Z.shiftr x (8 * Z.of_nat i)) 255) (seq 0 n).

Definition pad (msg : list Z) : list Z :=
  let len := Z.of_nat (List.length msg) in
  let zeros := Z.to_nat ((55 - len) mod 64) in
  msg ++ [128] ++ repeat 0 zeros ++ le_bytes 8 ((8 * len) mod 2 ^ 64).

Fixpoint le_word (bs : list Z) : Z :=
  match bs with
  | [] => 0
  | b :: bs' => b + 256 * le_word bs'
  end.

(** The 16 words of a 64-byte block. *)
Definition block_words (block : list Z) : list Z :=
  map (fun i => le_word (firstn 4 (skipn (4 * i) block))) (seq 0 16).

Definition state : Type := Z * Z * Z * Z.

Definition round (M : list Z) (st : state) (i : Z) : state :=
  let '(a, b, c, d) := st in
  let '(f, g) :=
    if i <? 16 then (Z.lor (Z.land b c) (Z.land (not32 b) d), i)
    else if i <? 32 then
      (Z.lor (Z.land d b) (Z.land (not32 d) c), (5 * i + 1) mod 16)
    else if i <? 48 then (Z.lxor (Z.lxor b c) d, (3 * i + 5) mod 16)
    else (Z.lxor c (Z.lor b (not32 d)), (7 * i) mod 16) in
  let f' := add32 (add32 (add32 f a) (nthZ K i)) (nthZ M g) in
  (d, add32 b (rotl32 f' (nthZ S i)), b, c).

Definition compress (st : state) (block : list Z) : state :=
  let M := block_words block in
  let '(a, b, c, d) := st in
  let '(a', b', c', d') :=
    fold_left (round M) (map Z.of_nat (seq 0 64)) st in
  (add32 a a', add32 b b', add32 c c', add32 d d').

(** Consecutive 64-byte blocks; [n] is the number of blocks. *)
Fixpoint blocks (n : nat) (bytes : list Z) : list (list Z) :=
  match n with
  | O => []
  | Datatypes.S n' => firstn 64 bytes :: blocks n' (skipn 64 bytes)
  end.

Definition init : state :=
  (0x67452301, 0xefcdab89, 0x98badcfe, 0x10325476).

Definition digest (msg : list Z) : list Z :=
  let p := pad msg in
  let '(a, b, c, d) :=
    fold_left compress (blocks (List.length p / 64) p) init in
  le_bytes 4 a ++ le_bytes 4 b ++ le_bytes 4 c ++ le_bytes 4 d.

Definition hex_digit (n : Z) : ascii :=
  if n <? 10 then ascii_of_N (Z.to_N (48 + n))
  else ascii_of_N (Z.to_N (87 + n)).

Fixpoint hex (bytes : list Z) : string :=
  match bytes with
  | [] => EmptyString
  | b :: bs => String (hex_digit (b / 16)) (String (hex_digit (b mod 16)) (hex bs))
  end.

Definition hexdigest (msg : list Z) : string := hex (digest msg).

End MD5.

(** ** [app/config.py] *)

Record Settings : Type := {
  BACKEND_URL : string;
  BACKEND_API_KEY : option string;
  REQUEST_TIMEOUT : Z;
  MAX_RETRIES : Z;
  RETRY_DELAY : Z;
  REQUESTS_PER_SECOND : Q;
  CONCURRENT_REQUESTS : Z;
  DOWNLOAD_DELAY : Q;
  NEWS_API_KEY : option string;
  MIN_ARTICLE_LENGTH : Z;
  ALLOWED_LANGUAGES : list string;
  BLACKLIST_KEYWORDS : list string;
  CHECK_DUPLICATES_BY_URL : bool;
  CHECK_DUPLICATES_BY_TITLE : bool;
  DUPLICATE_SIMILARITY_THRESHOLD : Q;
  SCRAPE_INTERVAL_MINUTES : Z;
  SCRAPE_LAST_N_HOURS : Z;
  BATCH_SIZE : Z
}.

(** [settings = Settings()] with no override from the environment. *)
Definition settings : Settings := {|
  BACKEND_URL := "http://localhost:8000";
  BACKEND_API_KEY := None;
  REQUEST_TIMEOUT := 30;
  MAX_RETRIES := 3;
  RETRY_DELAY := 5;
  REQUESTS_PER_SECOND := 2;
  CONCURRENT_REQUESTS := 16;
  DOWNLOAD_DELAY := 1;
  NEWS_API_KEY := None;
  MIN_ARTICLE_LENGTH := 50;
  ALLOWED_LANGUAGES := ["en"];
  BLACKLIST_KEYWORDS := ["advertisement"; "sponsored"; "promoted"];
  CHECK_DUPLICATES_BY_URL := true;
  CHECK_DUPLICATES_BY_TITLE := true;
  DUPLICATE_SIMILARITY_THRESHOLD := 9 # 10;
  SCRAPE_INTERVAL_MINUTES := 30;
  SCRAPE_LAST_N_HOURS := 24;
  BATCH_SIZE := 10
|}.

(** The helpers that [app/config.py] defines next to the class, at module
    level.  They read the global [settings] instance. *)
Definition is_allowed_language (cfg : Settings) (language : string) : bool :=
  existsb (String.eqb language) (ALLOWED_LANGUAGES cfg).

Definition is_blacklisted (cfg : Settings) (title : string) : bool :=
  let title_lower := Str.lower title in
  existsb (fun keyword => Str.contains keyword title_lower)
          (BLACKLIST_KEYWORDS cfg).

(** How a call [obj.name(arg)] with a string argument and a boolean answer
    is resolved: to a function, or not at all. *)
Definition resolver : Type := string -> result (string -> bool).

(** [settings.name(...)].  The class [Settings] declares data fields only,
    and the two helpers above are functions of the module, not attributes
    of the instance: looking either of them up on [settings] raises. *)
Definition settings_attribute : resolver :=
  fun _ => Raise AttributeError.

(** What the same names resolve to in the module [app.config] itself. *)
Definition config_module (cfg : Settings) : resolver :=
  fun name =>
    if String.eqb name "is_allowed_language" then Ok (is_allowed_language cfg)
    else if String.eqb name "is_blacklisted" then Ok (is_blacklisted cfg)
    else Raise AttributeError.

(** ** [app/scrapers/base_scraper.py]: [Article] *)

(** One microsecond is the unit of [datetime] and [timedelta]. *)
Definition timedelta_hours (hours : Z) : Z := (hours * 3600 * 1000000)%Z.
Definition timedelta_days (days : Z) : Z := timedelta_hours (24 * days).

Record Article : Type := {
  title : string;
  url : string;
  content : string;
  summary : string;
  author : option string;
  published_at : Z;
  source : option string;
  category : option string;
  image_url : option string;
  language : string;
  tags : list string;
  content_hash : string;
  scraped_at : Z
}.

(** [Article._generate_hash]: the MD5 of the title followed by the URL. *)
Definition _generate_hash (title url : string) : string :=
  MD5.hexdigest (Str.encode_utf8 (title ++ url)).

(** [Article.__init__].  [now] is the reading of [datetime.utcnow()]. *)
Definition Article_init (now : Z) (title url content summary : string)
    (author : option string) (published_at : option Z)
    (source category image_url : option string) (language : string)
    (tags : option (list string)) : Article := {|
  title := title;
  url := url;
  content := content;
  summary := summary;
  author := author;
  published_at := default now published_at;
  source := source;
  category := category;
  image_url := image_url;
  language := language;
  tags := default [] tags;
  content_hash := _generate_hash title url;
  scraped_at := now
|}.

(** [len(x) < n] style comparisons on a Python list. *)
Definition len {A} (l : list A) : Z := Z.of_nat (List.length l).

(** [Article.is_valid], with the lookup of the two helpers made explicit. *)
Definition is_valid_via (lookup : resolver) (cfg : Settings) (a : Article)
  : result bool :=
  if Str.is_empty (title a) || Str.is_empty (url a) then Ok false
  else
    let word_count := len (Str.split (content a)) in
    if (word_count <? MIN_ARTICLE_LENGTH cfg)%Z then Ok false
    else
      allowed <- lookup "is_allowed_language" ;;
      if negb (allowed (language a)) then Ok false
      else
        blacklisted <- lookup "is_blacklisted" ;;
        if blacklisted (title a) then Ok false
        else Ok true.

Definition is_valid (cfg : Settings) (a : Article) : result bool :=
  is_valid_via settings_attribute cfg a.

(** ** [BaseScraper] *)

(** [BaseScraper.clean_text] *)
Definition clean_text (text : string) : string :=
  let text := Str.join " " (Str.split text) in
  let text := Str.replace (String "010" (String "010" (String "010" "")))
                          (String "010" (String "010" "")) text in
  Str.strip text.

(** [BaseScraper.is_recent] with [hours] left to its default. *)
Definition is_recent (cfg : Settings) (now : Z) (published_at : Z) : bool :=
  let hours := SCRAPE_LAST_N_HOURS cfg in
  let age := (now - published_at)%Z in
  (age <? timedelta_hours hours)%Z.

(** [BaseScraper.validate_article] *)
Definition validate_article_via (lookup : resolver) (cfg : Settings)
    (a : Article) : result bool :=
  is_valid_via lookup cfg a.

(** [[a for a in articles if self.validate_article(a)]]: the first call that
    raises ends the comprehension. *)
Fixpoint keep_valid (lookup : resolver) (cfg : Settings)
    (articles : list Article) : result (list Article) :=
  match articles with
  | [] => Ok []
  | a :: rest =>
      ok <- validate_article_via lookup cfg a ;;
      kept <- keep_valid lookup cfg rest ;;
      Ok (if ok then a :: kept else kept)
  end.

(** [BaseScraper.run], given what [self.scrape()] did.  Every exception is
    caught and turned into the empty list. *)
Definition run_via (lookup : resolver) (cfg : Settings)
    (scraped : result (list Article)) : list Article :=
  match (articles <- scraped ;; keep_valid lookup cfg articles) with
  | Ok valid_articles => valid_articles
  | Raise _ => []
  end.

Definition run (cfg : Settings) (scraped : result (list Article))
  : list Article :=
  run_via settings_attribute cfg scraped.

(** ** The network and the clock seen by [fetch_page] *)

(** What [self.session.get(url, timeout=...)] does: a response arrives, or
    [requests] raises one of its [RequestException]s (timeout, connection
    error, ...). *)
Inductive Reply : Type :=
| Response (status_code : Z) (text : string)
| RequestFailed.

Inductive Event : Type :=
| EvGet (url : string)
| EvSleep (seconds : Q).

(** The requests issued and the sleeps taken so far, oldest first. *)
Definition World : Type := list Event.

Fixpoint requests_made (w : World) : nat :=
  match w with
  | [] => 0
  | EvGet _ :: w' => S (requests_made w')
  | EvSleep _ :: w' => requests_made w'
  end.

(** [time.sleep(seconds)]: a negative argument raises [ValueError]. *)
Definition sleep (seconds : Q) (w : World) : result unit * World :=
  if Qle_bool 0 seconds then (Ok tt, w ++ [EvSleep seconds])
  else (Raise ValueError, w).

(** [response.raise_for_status()]: the statuses 400..599 raise
    [requests.HTTPError], a [RequestException]. *)
Definition raise_for_status (r : Reply) : result string :=
  match r with
  | Response status_code text =>
      if ((400 <=? status_code) && (status_code <? 600))%Z
      then Raise RequestException
      else Ok text
  | RequestFailed => Raise RequestException
  end.

Section FetchPage.

Variable cfg : Settings.

(** The remote side: the reply to a request for [url], given how many
    requests were issued before it. *)
Variable server : nat -> string -> Reply.

Definition session_get (url : string) (w : World) : Reply * World :=
  (server (requests_made w) url, w ++ [EvGet url]).

(** [BaseScraper.fetch_page].  The result is [None] when the retries are
    used up, the page text otherwise; [ValueError] escapes when a delay of
    the settings is negative. *)
Equations? fetch_page (url : string) (retry : Z) (w : World)
  : result (option string) * World
  by wf (Z.to_nat (MAX_RETRIES cfg - retry)) lt :=
fetch_page url retry w with session_get url w := {
  | (reply, w1) with raise_for_status reply := {
    | Ok text with sleep (DOWNLOAD_DELAY cfg) w1 := {
      | (Ok _, w2) => (Ok (Some text), w2)
      | (Raise e, w2) => (Raise e, w2) }
    | Raise _ with Z_lt_dec retry (MAX_RETRIES cfg) := {
      | left _ with sleep (inject_Z (RETRY_DELAY cfg)) w1 := {
        | (Ok _, w2) => fetch_page url (retry + 1) w2
        | (Raise e, w2) => (Raise e, w2) }
      | right _ => (Ok None, w1) } } }.
Proof. lia. Qed.

End FetchPage.

(** ** Values read from feed entries and API items *)

(** A key of a dict-like object: missing, present with [None], or present
    with a string. *)
Inductive field : Type :=
| Absent
| Null
| Text (s : string).

(** [d.get(key, default)]; the answer is a Python value, [None] included. *)
Definition get (f : field) (default : option string) : option string :=
  match f with
  | Absent => default
  | Null => None
  | Text s => Some s
  end.

(** Truth value of a string-or-[None]. *)
Definition truthy (v : option string) : bool :=
  match v with
  | Some s => negb (Str.is_empty s)
  | None => false
  end.

(** [x or y] *)
Definition py_or (x y : option string) : option string :=
  if truthy x then x else y.

(** A method of [str] called on a value that may be [None]. *)
Definition as_str (v : option string) : result string :=
  match v with
  | Some s => Ok s
  | None => Raise AttributeError
  end.

(** A publication date as the source delivers it: none, one that the
    [datetime] constructor or [fromisoformat] rejects, or a proper instant. *)
Inductive stamp : Type :=
| NoDate
| BadDate
| Date (t : Z).

Definition parsed_date (s : stamp) : option Z :=
  match s with
  | Date t => Some t
  | _ => None
  end.

(** [BaseScraper.detect_language] around [langdetect.detect]; [None] stands
    for [LangDetectException]. *)
Definition detect_language (detect : string -> option string) (text : string)
  : string :=
  default "unknown" (detect text).

(** ** [app/scrapers/rss_scraper.py] *)

Record Enclosure : Type := {
  enc_type : field;
  enc_href : option string
}.

(** An element of [media_content] or [media_thumbnail]: an empty dict, or a
    non-empty one with what its [get('url')] answers. *)
Inductive Media : Type :=
| EmptyMedia
| MediaUrl (url : option string).

Record Entry : Type := {
  e_title : field;
  e_link : field;
  e_summary : field;
  e_description : field;
  e_content : option (list field);            (* the [value] of each part *)
  e_author : field;
  e_published_parsed : stamp;
  e_media_content : option (list Media);
  e_media_thumbnail : option (list Media);
  e_enclosures : option (list Enclosure);
  e_tags : option (list (option string))      (* the [term] of each, if any *)
}.

(** What [feedparser.parse] hands back: it raised, or the entries, each with
    the clock reading at the time it is processed. *)
Inductive Feed : Type :=
| FeedRaised
| FeedParsed (entries : list (Z * Entry)).

(** The loop over [entry.enclosures]. *)
Fixpoint first_image_enclosure (encs : list Enclosure) (image_url : option string)
  : result (option string) :=
  match encs with
  | [] => Ok image_url
  | enc :: rest =>
      ty <- as_str (get (enc_type enc) (Some "")) ;;
      if String.prefix "image/" ty then Ok (enc_href enc)
      else first_image_enclosure rest image_url
  end.

Section Connectors.

Variable cfg : Settings.
Variable detect : string -> option string.

(** [RSSFeedScraper._parse_entry] for the scraper of [source_name] and
    [category]; [now] is the clock while the entry is processed. *)
Definition _parse_entry (source_name : string) (category : option string)
    (now : Z) (entry : Entry) : result (option Article) :=
  title0 <- as_str (get (e_title entry) (Some "")) ;;
  let title := Str.strip title0 in
  if Str.is_empty title then Ok None else
  url0 <- as_str (get (e_link entry) (Some "")) ;;
  let url := Str.strip url0 in
  if Str.is_empty url then Ok None else
  summary0 <- as_str (py_or (get (e_summary entry) (Some ""))
                            (get (e_description entry) (Some ""))) ;;
  let summary := clean_text summary0 in
  content0 <-
    match e_content entry with
    | Some (part :: _) =>
        match part with
        | Absent => Raise AttributeError
        | Null => Ok None
        | Text s => Ok (Some s)
        end
    | Some [] | None => Ok (Some "")
    end ;;
  let content1 := if truthy content0 then default "" content0 else summary in
  let content := clean_text content1 in
  let author := get (e_author entry) None in
  let published_at := default now (parsed_date (e_published_parsed entry)) in
  if negb (is_recent cfg now published_at) then Ok None else
  let image_url :=
    match e_media_content entry with
    | Some (MediaUrl u :: _) => u
    | _ => None
    end in
  let image_url :=
    if negb (truthy image_url) then
      match e_media_thumbnail entry with
      | Some (MediaUrl u :: _) => u
      | _ => image_url
      end
    else image_url in
  image_url <-
    (if negb (truthy image_url) then
       match e_enclosures entry with
       | Some encs => first_image_enclosure encs image_url
       | None => Ok image_url
       end
     else Ok image_url) ;;
  let tags :=
    match e_tags entry with
    | Some ts => omap id ts
    | None => []
    end in
  let language := detect_language detect (title ++ " " ++ content) in
  Ok (Some (Article_init now title url content summary author
              (Some published_at) (Some source_name) category image_url
              language (Some tags))).

(** The loop of [RSSFeedScraper.scrape]: an entry whose parse raises is
    logged and passed over. *)
Fixpoint scrape_entries (source_name : string) (category : option string)
    (entries : list (Z * Entry)) : list Article :=
  match entries with
  | [] => []
  | (now, entry) :: rest =>
      match _parse_entry source_name category now entry with
      | Ok (Some article) =>
          article :: scrape_entries source_name category rest
      | Ok None | Raise _ => scrape_entries source_name category rest
      end
  end.

(** [RSSFeedScraper.scrape] *)
Definition rss_scrape (source_name : string) (category : option string)
    (feed : Feed) : list Article :=
  match feed with
  | FeedRaised => []
  | FeedParsed entries => scrape_entries source_name category entries
  end.

End Connectors.

(** ** [app/scrapers/api_scraper.py] *)

(** [item.get('source', {})]: missing, [None], or a dict with its [id] and
    [name]. *)
Inductive SourceInfo : Type :=
| NoSource
| NullSource
| SourceDict (id : option string) (name : field).

Record Item : Type := {
  i_title : field;
  i_url : field;
  i_description : field;
  i_content : field;
  i_author : option string;
  i_publishedAt : stamp;
  i_source : SourceInfo;
  i_urlToImage : option string
}.

(** What [client.get_top_headlines] hands back: it raised, or a status and
    the items, each with the clock reading at the time it is processed. *)
Inductive ApiResponse : Type :=
| ApiRaised
| ApiAnswer (status_ok : bool) (articles : list (Z * Item)).

Section PollingApi.

Variable detect : string -> option string.

(** [NewsAPIScraper._parse_api_article]; [category] is the scraper's. *)
Definition _parse_api_article (category : option string) (now : Z)
    (item : Item) : result (option Article) :=
  title0 <- as_str (get (i_title item) (Some "")) ;;
  let title := Str.strip title0 in
  url0 <- as_str (get (i_url item) (Some "")) ;;
  let url := Str.strip url0 in
  if Str.is_empty title || Str.is_empty url then Ok None else
  let description := get (i_description item) (Some "") in
  let content := get (i_content item) (Some "") in
  let content :=
    if negb (truthy content)
       || (Z.of_nat (String.length (default "" content)) <? 100)%Z
    then description else content in
  let author := i_author item in
  let published_at := parsed_date (i_publishedAt item) in
  source_name <-
    match i_source item with
    | NoSource => Ok (py_or None (Some "newsapi"))
    | NullSource => Raise AttributeError
    | SourceDict id name => Ok (py_or id (get name (Some "newsapi")))
    end ;;
  let image_url := i_urlToImage item in
  content_str <-
    match content with
    | Some s => Ok s
    | None => Raise TypeError
    end ;;
  let language := detect_language detect (title ++ " " ++ content_str) in
  description_str <- as_str description ;;
  Ok (Some (Article_init now (clean_text title) url (clean_text content_str)
              (clean_text description_str) author
              (Some (default now published_at)) source_name category
              image_url language None)).

(** The loop of [_scrape_top_headlines].  It runs inside one [try]: the
    first item whose parse raises ends the loop, and the articles gathered
    before it are returned. *)
Fixpoint parse_items (category : option string) (items : list (Z * Item))
  : list Article :=
  match items with
  | [] => []
  | (now, item) :: rest =>
      match _parse_api_article category now item with
      | Ok (Some article) => article :: parse_items category rest
      | Ok None => parse_items category rest
      | Raise _ => []
      end
  end.

(** [NewsAPIScraper._scrape_top_headlines] *)
Definition _scrape_top_headlines (category : option string)
    (response : ApiResponse) : list Article :=
  match response with
  | ApiRaised => []
  | ApiAnswer status_ok items =>
      if status_ok then parse_items category items else []
  end.

(** [NewsAPIScraper.scrape] *)
Definition api_scrape (category : option string) (response : ApiResponse)
  : list Article :=
  [] ++ _scrape_top_headlines category response.

End PollingApi.

(** ** [app/tasks/scraping_tasks.py] *)

(** [range(0, stop, step)] for a [stop] that is a length. *)
Definition range0 (stop step : Z) : result (list Z) :=
  if (step =? 0)%Z then Raise ValueError
  else if (step <? 0)%Z then Ok []
  else Ok (map (fun k => (Z.of_nat k * step)%Z)
               (seq 0 (Z.to_nat ((stop + step - 1) / step)))).

(** [xs[i:j]] for [0 <= i <= j]. *)
Definition slice {A} (xs : list A) (i j : Z) : list A :=
  firstn (Z.to_nat (j - i)) (skipn (Z.to_nat i) xs).

(** What one [client.post] followed by [raise_for_status] and [json()]
    comes to: the backend took the batch and answered with or without a
    [created] count, or one of the three calls raised. *)
Inductive Delivery : Type :=
| Accepted (created : option Z)
| Rejected (e : exn).

Section Delivery.

Context {A : Type}.
Variable cfg : Settings.

(** The backend: its answer to the [k]-th post of a run, given the batch. *)
Variable backend : nat -> list A -> Delivery.

(** Whether celery may still retry the task: it runs in a worker and
    [max_retries=5] is not used up. *)
Variable may_retry : bool.

(** [raise self.retry(exc=exc, countdown=60)]: [Retry] while the task may
    be retried, the exception itself otherwise.  It raises either way. *)
Definition self_retry (exc : exn) : exn :=
  if may_retry then Retry 60 else exc.

(** The batches of [send_articles_to_backend]. *)
Definition make_batches (articles : list A) : result (list (list A)) :=
  let batch_size := BATCH_SIZE cfg in
  starts <- range0 (len articles) batch_size ;;
  Ok (map (fun i => slice articles i (i + batch_size)) starts).

(** The loop over the batches.  [k] batches have been posted, [posted]
    lists them.  A rejected post leaves the loop through [self.retry]. *)
Fixpoint send_batches (k : nat) (batches : list (list A)) (sent_count : Z)
    (posted : list (list A)) : result Z * list (list A) :=
  match batches with
  | [] => (Ok sent_count, posted)
  | batch :: rest =>
      match backend k batch with
      | Accepted created =>
          send_batches (S k) rest
            (sent_count + default (len batch) created)%Z
            (posted ++ [batch])
      | Rejected exc => (Raise (self_retry exc), posted ++ [batch])
      end
  end.

(** One run of [send_articles_to_backend]: its result and the batches it
    posted, in order. *)
Definition send_articles_to_backend (articles : list A)
  : result Z * list (list A) :=
  match articles with
  | [] => (Ok 0%Z, [])
  | _ =>
      match make_batches articles with
      | Raise e => (Raise e, [])
      | Ok batches => send_batches 0 batches 0 []
      end
  end.

End Delivery.

(** The state of the loop of [deduplicate_articles]. *)
Record Seen : Type := {
  seen_urls : gset string;
  seen_hashes : gset string;
  unique : list Article
}.

Section Dedup.

Variable cfg : Settings.

(** One turn of the loop. *)
Definition dedup_step (st : Seen) (article : Article) : Seen :=
  if CHECK_DUPLICATES_BY_URL cfg && bool_decide (url article ∈ seen_urls st)
  then st
  else
    let urls :=
      if CHECK_DUPLICATES_BY_URL cfg
      then {[ url article ]} ∪ seen_urls st else seen_urls st in
    if CHECK_DUPLICATES_BY_TITLE cfg
       && bool_decide (content_hash article ∈ seen_hashes st)
    then {| seen_urls := urls; seen_hashes := seen_hashes st;
            unique := unique st |}
    else
      let hashes :=
        if CHECK_DUPLICATES_BY_TITLE cfg
        then {[ content_hash article ]} ∪ seen_hashes st
        else seen_hashes st in
      {| seen_urls := urls; seen_hashes := hashes;
         unique := unique st ++ [article] |}.

Definition dedup_start : Seen :=
  {| seen_urls := ∅; seen_hashes := ∅; unique := [] |}.

(** [deduplicate_articles] *)
Definition deduplicate_articles (articles : list Article) : list Article :=
  unique (fold_left dedup_step articles dedup_start).

End Dedup.

(** ** Vocabulary of the properties *)

(** Every character of [s] satisfies [p]. *)
Fixpoint all_chars (p : ascii -> bool) (s : string) : bool :=
  match s with
  | EmptyString => true
  | String c s' => p c && all_chars p s'
  end.

(** A word: what [split] yields, non-empty and free of whitespace. *)
Definition word (w : string) : Prop :=
  w <> "" /\ all_chars (fun c => negb (Str.isspace c)) w = true.

(** A title is stored normalized when the clean step leaves it alone. *)
Definition normalized (s : string) : Prop := clean_text s = s.

(** An article as [Article.__init__] leaves it: the fingerprint is the hash
    of the stored title and URL. *)
Definition constructed (a : Article) : Prop :=
  content_hash a = _generate_hash (title a) (url a).

(** The events that [w'] has on top of [w]. *)
Definition since (w w' : World) : list Event := skipn (List.length w) w'.


(** The events of a fetch whose every attempt fails, with [n] retries. *)
Fixpoint failing_trace (cfg : Settings) (url : string) (n : nat) : list Event :=
  match n with
  | O => [EvGet url]
  | S n' =>
      EvGet url :: EvSleep (inject_Z (RETRY_DELAY cfg))
        :: failing_trace cfg url n'
  end.

(** The sleeps taken right before a request: within one [fetch_page] these
    are the delays before the retries, in order. *)
Fixpoint retry_delays (tr : list Event) : list Q :=
  match tr with
  | [] => []
  | EvSleep d :: ((EvGet _ :: _) as tr') => d :: retry_delays tr'
  | _ :: tr' => retry_delays tr'
  end.


(** The sleeps between each request and the next one.  [cur] holds the
    sleeps since the latest request, none before the first. *)
Fixpoint waits_from (cur : option (list Q)) (w : list Event) : list (list Q) :=
  match w with
  | [] => []
  | EvGet _ :: w' =>
      match cur with
      | Some ds => ds :: waits_from (Some []) w'
      | None => waits_from (Some []) w'
      end
  | EvSleep d :: w' => waits_from (option_map (fun ds => ds ++ [d]) cur) w'
  end.

Definition waits (w : World) : list (list Q) := waits_from None w.

Definition Qsum (ds : list Q) : Q := fold_right Qplus 0%Q ds.

(** All the time slept in [w]. *)
Fixpoint total_sleep (w : list Event) : Q :=
  match w with
  | [] => 0%Q
  | EvSleep d :: w' => (d + total_sleep w')%Q
  | EvGet _ :: w' => total_sleep w'
  end.

(** The spacing the design notes ask for between two requests to a source:
    the stricter of the minimum delay and of the rate ceiling. *)
Definition required_spacing (cfg : Settings) : Q :=
  let by_rate := (1 / REQUESTS_PER_SECOND cfg)%Q in
  if Qle_bool by_rate (DOWNLOAD_DELAY cfg) then DOWNLOAD_DELAY cfg else by_rate.

(** The validity predicate in the words of the design notes. *)
Definition article_ok (cfg : Settings) (a : Article) : Prop :=
  title a <> ""
  /\ url a <> ""
  /\ (MIN_ARTICLE_LENGTH cfg <= len (Str.split (content a)))%Z
  /\ In (language a) (ALLOWED_LANGUAGES cfg)
  /\ (forall keyword, In keyword (BLACKLIST_KEYWORDS cfg) ->
        Str.contains keyword (Str.lower (title a)) = false).

(** The article that a parse yields, if it yields one. *)
Definition article_of (r : result (option Article)) : option Article :=
  match r with
  | Ok (Some a) => Some a
  | Ok None | Raise _ => None
  end.

(** An entry is stale when its age has reached the freshness window. *)
Definition stale (cfg : Settings) (now published : Z) : Prop :=
  (timedelta_hours (SCRAPE_LAST_N_HOURS cfg) <= now - published)%Z.

(** The sleeps since the latest request once [w] is over. *)
Fixpoint pending (cur : option (list Q)) (w : list Event) : option (list Q) :=
  match w with
  | [] => cur
  | EvGet _ :: w' => pending (Some []) w'
  | EvSleep d :: w' => pending (option_map (fun ds => ds ++ [d]) cur) w'
  end.

(** A list in which no two articles share a key that the settings have
    [deduplicate_articles] check. *)
Definition distinct_keys (cfg : Settings) (l : list Article) : Prop :=
  (CHECK_DUPLICATES_BY_URL cfg = true -> List.NoDup (map url l))
  /\ (CHECK_DUPLICATES_BY_TITLE cfg = true -> List.NoDup (map content_hash l)).

(** The checked keys of the articles kept so far have all been recorded. *)
Definition records_kept (cfg : Settings) (st : Seen) : Prop :=
  (CHECK_DUPLICATES_BY_URL cfg = true ->
   forall a, In a (unique st) -> url a ∈ seen_urls st)
  /\ (CHECK_DUPLICATES_BY_TITLE cfg = true ->
      forall a, In a (unique st) -> content_hash a ∈ seen_hashes st).

(** None of the checked keys of [l] has been recorded in [st]. *)
Definition unseen (cfg : Settings) (st : Seen) (l : list Article) : Prop :=
  (CHECK_DUPLICATES_BY_URL cfg = true ->
   forall a, In a l -> url a ∉ seen_urls st)
  /\ (CHECK_DUPLICATES_BY_TITLE cfg = true ->
      forall a, In a l -> content_hash a ∉ seen_hashes st).

(** ** Sample inputs *)

Definition detect_en : string -> option string := fun _ => Some "en".

(** A feed entry with a title, a fixed link and summary, and nothing else. *)
Definition rates_entry (t : string) (published : stamp) : Entry := {|
  e_title := Text t;
  e_link := Text "https://example.com/rates";
  e_summary := Text "Rates rise again.";
  e_description := Absent;
  e_content := None;
  e_author := Absent;
  e_published_parsed := published;
  e_media_content := None;
  e_media_thumbnail := None;
  e_enclosures := None;
  e_tags := None
|}.

(** The article the feed connector builds from [rates_entry t NoDate] at
    time 0. *)
Definition rates_article (t : string) : Article :=
  Article_init 0 t "https://example.com/rates" "Rates rise again."
    "Rates rise again." None (Some 0%Z) (Some "bbc") None None "en" (Some []).

(** Servers: one that never answers, one that answers 404 to everything
    and one that answers every request. *)
Definition server_down : nat -> string -> Reply := fun _ _ => RequestFailed.

Definition server_404 : nat -> string -> Reply :=
  fun _ _ => Response 404 "Not Found".

Definition server_up : nat -> string -> Reply :=
  fun _ u => Response 200 ("<html>" ++ u ++ "</html>")%string.

(** Twenty-five articles, named by their rank, and their three batches of
    at most ten. *)
Definition job : list nat := seq 0 25.
Definition batch1 : list nat := seq 0 10.
Definition batch2 : list nat := seq 10 10.
Definition batch3 : list nat := seq 20 5.

(** A backend that refuses the second batch whenever it is posted and takes
    every other batch. *)
Definition backend_refusing_batch2 : nat -> list nat -> Delivery :=
  fun _ batch =>
    match batch with
    | 10 :: _ => Rejected HTTPError
    | _ => Accepted None
    end.

(** An API item and a feed entry published at time 0, read forty days
    later. *)
Definition forty_days : Z := timedelta_days 40.

Definition old_item : Item := {|
  i_title := Text "Rates rise";
  i_url := Text "https://example.com/rates";
  i_description := Text "Rates rise again.";
  i_content := Null;
  i_author := None;
  i_publishedAt := Date 0;
  i_source := SourceDict (Some "bbc-news") (Text "BBC News");
  i_urlToImage := None
|}.

Definition old_article : Article :=
  Article_init forty_days "Rates rise" "https://example.com/rates"
    "Rates rise again." "Rates rise again." None (Some 0%Z)
    (Some "bbc-news") None None "en" None.

(** A feed entry whose title is [None]: its parse raises. *)
Definition broken_entry : Entry := {|
  e_title := Null;
  e_link := Text "https://example.com/broken";
  e_summary := Absent;
  e_description := Absent;
  e_content := None;
  e_author := Absent;
  e_published_parsed := NoDate;
  e_media_content := None;
  e_media_thumbnail := None;
  e_enclosures := None;
  e_tags := None
|}.

(** The same story as [rates_article "Rates rise"], taken from another
    source with another text. *)
Definition rates_article_reuters : Article :=
  Article_init 7 "Rates rise" "https://example.com/rates"
    "Markets reacted to the move." "" None None (Some "reuters")
    (Some "business") None "en" (Some ["rates"]).

(** ** Further vocabulary *)

(** The characters of a string, in order. *)
Definition chars (s : string) : list ascii := list_ascii_of_string s.

(** A lowercase hexadecimal digit. *)
Definition is_hex (c : ascii) : bool :=
  let n := Str.code c in
  ((48 <=? n) && (n <=? 57) || (97 <=? n) && (n <=? 102))%N.

(** The settings of the file with some fields set otherwise. *)
Definition with_blacklist (keywords : list string) (cfg : Settings)
  : Settings := {|
  BACKEND_URL := BACKEND_URL cfg;
  BACKEND_API_KEY := BACKEND_API_KEY cfg;
  REQUEST_TIMEOUT := REQUEST_TIMEOUT cfg;
  MAX_RETRIES := MAX_RETRIES cfg;
  RETRY_DELAY := RETRY_DELAY cfg;
  REQUESTS_PER_SECOND := REQUESTS_PER_SECOND cfg;
  CONCURRENT_REQUESTS := CONCURRENT_REQUESTS cfg;
  DOWNLOAD_DELAY := DOWNLOAD_DELAY cfg;
  NEWS_API_KEY := NEWS_API_KEY cfg;
  MIN_ARTICLE_LENGTH := MIN_ARTICLE_LENGTH cfg;
  ALLOWED_LANGUAGES := ALLOWED_LANGUAGES cfg;
  BLACKLIST_KEYWORDS := keywords;
  CHECK_DUPLICATES_BY_URL := CHECK_DUPLICATES_BY_URL cfg;
  CHECK_DUPLICATES_BY_TITLE := CHECK_DUPLICATES_BY_TITLE cfg;
  DUPLICATE_SIMILARITY_THRESHOLD := DUPLICATE_SIMILARITY_THRESHOLD cfg;
  SCRAPE_INTERVAL_MINUTES := SCRAPE_INTERVAL_MINUTES cfg;
  SCRAPE_LAST_N_HOURS := SCRAPE_LAST_N_HOURS cfg;
  BATCH_SIZE := BATCH_SIZE cfg
|}.

Definition with_batch_size (n : Z) (cfg : Settings) : Settings := {|
  BACKEND_URL := BACKEND_URL cfg;
  BACKEND_API_KEY := BACKEND_API_KEY cfg;
  REQUEST_TIMEOUT := REQUEST_TIMEOUT cfg;
  MAX_RETRIES := MAX_RETRIES cfg;
  RETRY_DELAY := RETRY_DELAY cfg;
  REQUESTS_PER_SECOND := REQUESTS_PER_SECOND cfg;
  CONCURRENT_REQUESTS := CONCURRENT_REQUESTS cfg;
  DOWNLOAD_DELAY := DOWNLOAD_DELAY cfg;
  NEWS_API_KEY := NEWS_API_KEY cfg;
  MIN_ARTICLE_LENGTH := MIN_ARTICLE_LENGTH cfg;
  ALLOWED_LANGUAGES := ALLOWED_LANGUAGES cfg;
  BLACKLIST_KEYWORDS := BLACKLIST_KEYWORDS cfg;
  CHECK_DUPLICATES_BY_URL := CHECK_DUPLICATES_BY_URL cfg;
  CHECK_DUPLICATES_BY_TITLE := CHECK_DUPLICATES_BY_TITLE cfg;
  DUPLICATE_SIMILARITY_THRESHOLD := DUPLICATE_SIMILARITY_THRESHOLD cfg;
  SCRAPE_INTERVAL_MINUTES := SCRAPE_INTERVAL_MINUTES cfg;
  SCRAPE_LAST_N_HOURS := SCRAPE_LAST_N_HOURS cfg;
  BATCH_SIZE := n
|}.

Definition with_download_delay (d : Q) (cfg : Settings) : Settings := {|
  BACKEND_URL := BACKEND_URL cfg;
  BACKEND_API_KEY := BACKEND_API_KEY cfg;
  REQUEST_TIMEOUT := REQUEST_TIMEOUT cfg;
  MAX_RETRIES := MAX_RETRIES cfg;
  RETRY_DELAY := RETRY_DELAY cfg;
  REQUESTS_PER_SECOND := REQUESTS_PER_SECOND cfg;
  CONCURRENT_REQUESTS := CONCURRENT_REQUESTS cfg;
  DOWNLOAD_DELAY := d;
  NEWS_API_KEY := NEWS_API_KEY cfg;
  MIN_ARTICLE_LENGTH := MIN_ARTICLE_LENGTH cfg;
  ALLOWED_LANGUAGES := ALLOWED_LANGUAGES cfg;
  BLACKLIST_KEYWORDS := BLACKLIST_KEYWORDS cfg;
  CHECK_DUPLICATES_BY_URL := CHECK_DUPLICATES_BY_URL cfg;
  CHECK_DUPLICATES_BY_TITLE := CHECK_DUPLICATES_BY_TITLE cfg;
  DUPLICATE_SIMILARITY_THRESHOLD := DUPLICATE_SIMILARITY_THRESHOLD cfg;
  SCRAPE_INTERVAL_MINUTES := SCRAPE_INTERVAL_MINUTES cfg;
  SCRAPE_LAST_N_HOURS := SCRAPE_LAST_N_HOURS cfg;
  BATCH_SIZE := BATCH_SIZE cfg
|}.

(** An API item whose description is [null], as NewsAPI sends them. *)
Definition undescribed_item : Item := {|
  i_title := Text "Markets open";
  i_url := Text "https://example.com/markets";
  i_description := Null;
  i_content := Absent;
  i_author := None;
  i_publishedAt := NoDate;
  i_source := NoSource;
  i_urlToImage := None
|}.

(** ** The source catalogue of [app/config.py] *)

(** The fields of [Settings] that name the sources.  A dict is the list of
    its items in insertion order, its keys distinct. *)
Record Sources : Type := {
  RSS_FEEDS : list (string * string);
  NEWS_API_SOURCES : list string;
  WEB_SCRAPE_URLS : list (string * string);
  SOURCE_CATEGORY_MAP : list (string * string)
}.

Definition sources : Sources := {|
  RSS_FEEDS :=
    [ ("bbc", "http://feeds.bbci.co.uk/news/rss.xml");
      ("cnn", "http://rss.cnn.com/rss/edition.rss");
      ("reuters", "https://www.reutersagency.com/feed/");
      ("techcrunch", "https://techcrunch.com/feed/");
      ("engadget", "https://www.engadget.com/rss.xml");
      ("espn", "https://www.espn.com/espn/rss/news") ];
  NEWS_API_SOURCES :=
    [ "bbc-news"; "cnn"; "reuters"; "techcrunch"; "the-verge"; "espn" ];
  WEB_SCRAPE_URLS :=
    [ ("bbc_tech", "https://www.bbc.com/news/technology");
      ("guardian_tech", "https://www.theguardian.com/technology") ];
  SOURCE_CATEGORY_MAP :=
    [ ("techcrunch", "technology"); ("the-verge", "technology");
      ("engadget", "technology"); ("espn", "sports");
      ("bbc-sport", "sports") ]
|}.

(** [d.keys()] and [d.get(key)] *)
Definition dict_keys {V} (d : list (string * V)) : list string := map fst d.

Fixpoint dict_get {V} (key : string) (d : list (string * V)) : option V :=
  match d with
  | [] => None
  | (k, v) :: d' => if String.eqb key k then Some v else dict_get key d'
  end.

(** [get_rss_feed_url] *)
Definition get_rss_feed_url (srcs : Sources) (source_name : string)
  : option string :=
  dict_get source_name (RSS_FEEDS srcs).

(** The order of [str]: code point by code point. *)
Definition str_le (a b : string) : Prop := String.leb a b = true.

#[global] Instance str_le_dec (a b : string) : Decision (str_le a b).
Proof. unfold str_le. apply _. Defined.

(** [sorted(xs)] on strings: the ascending rearrangement. *)
Definition sorted (xs : list string) : list string := merge_sort str_le xs.

(** [get_all_sources] *)
Definition get_all_sources (srcs : Sources) : list string :=
  let s0 : gset string := ∅ in
  let s1 := s0 ∪ list_to_set (dict_keys (RSS_FEEDS srcs)) in
  let s2 := s1 ∪ list_to_set (NEWS_API_SOURCES srcs) in
  let s3 := s2 ∪ list_to_set (dict_keys (WEB_SCRAPE_URLS srcs)) in
  sorted (elements s3).

(** ** [Article.to_dict] *)

(** The values of the dict: [None], a string, a list of strings, or the
    ISO text of an instant, kept as the instant it writes. *)
Inductive value : Type :=
| VNone
| VStr (s : string)
| VStrs (l : list string)
| VTime (t : Z).

Definition opt_value (o : option string) : value :=
  match o with
  | Some s => VStr s
  | None => VNone
  end.

Definition to_dict (a : Article) : list (string * value) :=
  [ ("title", VStr (title a));
    ("url", VStr (url a));
    ("content", VStr (content a));
    ("summary", VStr (summary a));
    ("author", opt_value (author a));
    ("published_at", VTime (published_at a));
    ("source", opt_value (source a));
    ("category", opt_value (category a));
    ("image_url", opt_value (image_url a));
    ("language", VStr (language a));
    ("tags", VStrs (tags a));
    ("content_hash", VStr (content_hash a));
    ("scraped_at", VTime (scraped_at a)) ].

(** ** [MultiFeedScraper], [NewsAPIScraper] and the scraping tasks *)

(** What [NewsApiClient(api_key=...)] comes to: it raised, or a client
    whose [get_top_headlines] answers for a comma-separated list of
    sources. *)
Inductive ApiClient : Type :=
| ClientRaised (e : exn)
| Client (get_top_headlines : string -> ApiResponse).

(** A [NewsAPIScraper] once built. *)
Record ApiScraper : Type := {
  api_sources : list string;
  api_category : option string;
  api_client : string -> ApiResponse
}.

(** The statistics that [scrape_all_sources] returns. *)
Record Stats : Type := {
  total_articles : Z;
  rss_articles : Z;
  api_articles : Z;
  sent_to_backend : Z;
  errors : Z;
  start_time : Z;
  end_time : Z
}.

Section Pipeline.

Variable cfg : Settings.
Variable srcs : Sources.
Variable detect : string -> option string.

(** How [settings.is_allowed_language] and [settings.is_blacklisted]
    resolve; [settings_attribute] in the code as written. *)
Variable lookup : resolver.

(** [feedparser.parse(url)] for each feed, and the API client. *)
Variable fetch_feed : string -> Feed.
Variable news_api : ApiClient.

(** [MultiFeedScraper._setup_scrapers]: name, feed URL and category of each
    scraper. *)
Definition _setup_scrapers : list (string * string * option string) :=
  map (fun item =>
         (fst item, snd item, dict_get (fst item) (SOURCE_CATEGORY_MAP srcs)))
      (RSS_FEEDS srcs).

(** [RSSFeedScraper(name, url, category).run()] *)
Definition rss_run (scraper : string * string * option string)
  : list Article :=
  let '(source_name, feed_url, category) := scraper in
  run_via lookup cfg
    (Ok (rss_scrape cfg detect source_name category (fetch_feed feed_url))).

(** [MultiFeedScraper.scrape_all]; [run] raises nothing. *)
Definition scrape_all : list Article :=
  flat_map rss_run _setup_scrapers.

(** [MultiFeedScraper.scrape_source] *)
Fixpoint scrape_source_among
    (scrapers : list (string * string * option string))
    (source_name : string) : list Article :=
  match scrapers with
  | [] => []
  | scraper :: rest =>
      if String.eqb (fst (fst scraper)) source_name then rss_run scraper
      else scrape_source_among rest source_name
  end.

Definition scrape_source (source_name : string) : list Article :=
  scrape_source_among _setup_scrapers source_name.

(** [NewsAPIScraper.__init__] *)
Definition NewsAPIScraper_init (api_key : option string)
    (sources_arg : option (list string)) (category : option string)
  : result ApiScraper :=
  let key := py_or api_key (NEWS_API_KEY cfg) in
  if negb (truthy key) then Raise ValueError else
  match news_api with
  | ClientRaised e => Raise e
  | Client respond =>
      Ok {| api_sources :=
              match sources_arg with
              | Some (s :: l) => s :: l
              | Some [] | None => NEWS_API_SOURCES srcs
              end;
            api_category := category;
            api_client := respond |}
  end.

(** [NewsAPIScraper.run] *)
Definition api_run (scraper : ApiScraper) : list Article :=
  run_via lookup cfg
    (Ok (api_scrape detect (api_category scraper)
           (api_client scraper (Str.join "," (api_sources scraper))))).

(** The task [scrape_rss_feeds] *)
Definition scrape_rss_feeds : result (list (list (string * value))) :=
  Ok (map to_dict scrape_all).

(** The task [scrape_news_api] *)
Definition scrape_news_api : result (list (list (string * value))) :=
  if negb (truthy (NEWS_API_KEY cfg)) then Ok []
  else
    scraper <- NewsAPIScraper_init None None None ;;
    Ok (map to_dict (api_run scraper)).

(** The task [scrape_source] *)
Definition scrape_source_task (source_name : string)
  : result (list (list (string * value))) :=
  let rss_url := dict_get source_name (RSS_FEEDS srcs) in
  if truthy rss_url then
    Ok (map to_dict (rss_run (source_name, default "" rss_url, None)))
  else if existsb (String.eqb source_name) (NEWS_API_SOURCES srcs) then
    scraper <- NewsAPIScraper_init None (Some [source_name]) None ;;
    Ok (map to_dict (api_run scraper))
  else Ok [].

(** [deduplicate_articles] handed dicts, as [scrape_all_sources] hands
    them: the first turn of the loop reads [article.url], or else
    [article.content_hash], off a dict. *)
Definition deduplicate_dicts {D} (articles : list D) : result (list D) :=
  match articles with
  | [] => Ok []
  | _ :: _ =>
      if CHECK_DUPLICATES_BY_URL cfg || CHECK_DUPLICATES_BY_TITLE cfg
      then Raise AttributeError
      else Ok articles
  end.

Variable backend : nat -> list (list (string * value)) -> Delivery.
Variable may_retry : bool.

(** The task [scrape_all_sources], started at [t0] and ended at [t1]:
    its result and the batches posted to the backend. *)
Definition scrape_all_sources (t0 t1 : Z)
  : result Stats * list (list (list (string * value))) :=
  let '(all_articles, n_rss, errors1) :=
    match scrape_rss_feeds with
    | Ok rss => (rss, len rss, 0%Z)
    | Raise _ => ([], 0%Z, 1%Z)
    end in
  let '(all_articles, n_api, errors2) :=
    if truthy (NEWS_API_KEY cfg) then
      match scrape_news_api with
      | Ok api => (all_articles ++ api, len api, errors1)
      | Raise _ => (all_articles, 0%Z, (errors1 + 1)%Z)
      end
    else (all_articles, 0%Z, errors1) in
  let finish sent errs posted :=
    (Ok {| total_articles := len all_articles; rss_articles := n_rss;
           api_articles := n_api; sent_to_backend := sent; errors := errs;
           start_time := t0; end_time := t1 |}, posted) in
  match all_articles with
  | [] => finish 0%Z errors2 []
  | _ :: _ =>
      match deduplicate_dicts all_articles with
      | Raise e => (Raise e, [])
      | Ok unique_articles =>
          match send_articles_to_backend cfg backend may_retry
                  unique_articles with
          | (Ok sent_count, posted) => finish sent_count errors2 posted
          | (Raise _, posted) => finish 0%Z (errors2 + 1)%Z posted
          end
      end
  end.

End Pipeline.

(** An article [x] is linked to a kept one: some article [z] of the pool is
    [x] itself or, URLs being checked, has its URL; and some kept article
    [y] is [z] itself or, fingerprints being checked, has its fingerprint. *)
Definition linked (cfg : Settings) (pool kept : list Article) (x : Article)
  : Prop :=
  exists z y,
    In z pool /\ In y kept
    /\ (z = x \/ (CHECK_DUPLICATES_BY_URL cfg = true /\ url z = url x))
    /\ (y = z \/ (CHECK_DUPLICATES_BY_TITLE cfg = true
                  /\ content_hash y = content_hash z)).

(** Why the keys recorded so far were recorded, [done] being the articles
    the loop has been through. *)
Definition dedup_reasons (cfg : Settings) (done : list Article) (st : Seen)
  : Prop :=
  (forall h, h ∈ seen_hashes st ->
     exists y, In y (unique st) /\ content_hash y = h)
  /\ (forall u, u ∈ seen_urls st ->
        exists z y,
          In z done /\ url z = u /\ In y (unique st)
          /\ (y = z \/ (CHECK_DUPLICATES_BY_TITLE cfg = true
                        /\ content_hash y = content_hash z)))
  /\ (forall x, In x done -> linked cfg done (unique st) x).

(** A feed entry with a summary of sixty words. *)
Definition long_entry : Entry := {|
  e_title := Text "Rates rise";
  e_link := Text "https://example.com/rates";
  e_summary := Text (String.concat " " (repeat "word" 60));
  e_description := Absent;
  e_content := None;
  e_author := Absent;
  e_published_parsed := NoDate;
  e_media_content := None;
  e_media_thumbnail := None;
  e_enclosures := None;
  e_tags := None
|}.

(** ** Further settings and samples for the retry loop and the delivery *)

Definition with_requests_per_second (rps : Q) (cfg : Settings)
  : Settings := {|
  BACKEND_URL := BACKEND_URL cfg;
  BACKEND_API_KEY := BACKEND_API_KEY cfg;
  REQUEST_TIMEOUT := REQUEST_TIMEOUT cfg;
  MAX_RETRIES := MAX_RETRIES cfg;
  RETRY_DELAY := RETRY_DELAY cfg;
  REQUESTS_PER_SECOND := rps;
  CONCURRENT_REQUESTS := CONCURRENT_REQUESTS cfg;
  DOWNLOAD_DELAY := DOWNLOAD_DELAY cfg;
  NEWS_API_KEY := NEWS_API_KEY cfg;
  MIN_ARTICLE_LENGTH := MIN_ARTICLE_LENGTH cfg;
  ALLOWED_LANGUAGES := ALLOWED_LANGUAGES cfg;
  BLACKLIST_KEYWORDS := BLACKLIST_KEYWORDS cfg;
  CHECK_DUPLICATES_BY_URL := CHECK_DUPLICATES_BY_URL cfg;
  CHECK_DUPLICATES_BY_TITLE := CHECK_DUPLICATES_BY_TITLE cfg;
  DUPLICATE_SIMILARITY_THRESHOLD := DUPLICATE_SIMILARITY_THRESHOLD cfg;
  SCRAPE_INTERVAL_MINUTES := SCRAPE_INTERVAL_MINUTES cfg;
  SCRAPE_LAST_N_HOURS := SCRAPE_LAST_N_HOURS cfg;
  BATCH_SIZE := BATCH_SIZE cfg
|}.

Definition with_max_retries (n : Z) (cfg : Settings)
  : Settings := {|
  BACKEND_URL := BACKEND_URL cfg;
  BACKEND_API_KEY := BACKEND_API_KEY cfg;
  REQUEST_TIMEOUT := REQUEST_TIMEOUT cfg;
  MAX_RETRIES := n;
  RETRY_DELAY := RETRY_DELAY cfg;
  REQUESTS_PER_SECOND := REQUESTS_PER_SECOND cfg;
  CONCURRENT_REQUESTS := CONCURRENT_REQUESTS cfg;
  DOWNLOAD_DELAY := DOWNLOAD_DELAY cfg;
  NEWS_API_KEY := NEWS_API_KEY cfg;
  MIN_ARTICLE_LENGTH := MIN_ARTICLE_LENGTH cfg;
  ALLOWED_LANGUAGES := ALLOWED_LANGUAGES cfg;
  BLACKLIST_KEYWORDS := BLACKLIST_KEYWORDS cfg;
  CHECK_DUPLICATES_BY_URL := CHECK_DUPLICATES_BY_URL cfg;
  CHECK_DUPLICATES_BY_TITLE := CHECK_DUPLICATES_BY_TITLE cfg;
  DUPLICATE_SIMILARITY_THRESHOLD := DUPLICATE_SIMILARITY_THRESHOLD cfg;
  SCRAPE_INTERVAL_MINUTES := SCRAPE_INTERVAL_MINUTES cfg;
  SCRAPE_LAST_N_HOURS := SCRAPE_LAST_N_HOURS cfg;
  BATCH_SIZE := BATCH_SIZE cfg
|}.

Definition with_retry_delay (d : Z) (cfg : Settings)
  : Settings := {|
  BACKEND_URL := BACKEND_URL cfg;
  BACKEND_API_KEY := BACKEND_API_KEY cfg;
  REQUEST_TIMEOUT := REQUEST_TIMEOUT cfg;
  MAX_RETRIES := MAX_RETRIES cfg;
  RETRY_DELAY := d;
  REQUESTS_PER_SECOND := REQUESTS_PER_SECOND cfg;
  CONCURRENT_REQUESTS := CONCURRENT_REQUESTS cfg;
  DOWNLOAD_DELAY := DOWNLOAD_DELAY cfg;
  NEWS_API_KEY := NEWS_API_KEY cfg;
  MIN_ARTICLE_LENGTH := MIN_ARTICLE_LENGTH cfg;
  ALLOWED_LANGUAGES := ALLOWED_LANGUAGES cfg;
  BLACKLIST_KEYWORDS := BLACKLIST_KEYWORDS cfg;
  CHECK_DUPLICATES_BY_URL := CHECK_DUPLICATES_BY_URL cfg;
  CHECK_DUPLICATES_BY_TITLE := CHECK_DUPLICATES_BY_TITLE cfg;
  DUPLICATE_SIMILARITY_THRESHOLD := DUPLICATE_SIMILARITY_THRESHOLD cfg;
  SCRAPE_INTERVAL_MINUTES := SCRAPE_INTERVAL_MINUTES cfg;
  SCRAPE_LAST_N_HOURS := SCRAPE_LAST_N_HOURS cfg;
  BATCH_SIZE := BATCH_SIZE cfg
|}.

(** What the backend reports as created for [batches], posted as the posts
    [k], [k + 1], ... of a run: [result.get('created', len(batch))] of each
    answer. *)
Fixpoint created_total {A} (backend : nat -> list A -> Delivery) (k : nat)
    (batches : list (list A)) : Z :=
  match batches with
  | [] => 0%Z
  | batch :: rest =>
      (match backend k batch with
       | Accepted created => default (len batch) created
       | Rejected _ => 0
       end + created_total backend (S k) rest)%Z
  end.

(** A backend that takes every batch and reports one article of each as
    already known, hence not created. *)
Definition backend_skipping_one : nat -> list nat -> Delivery :=
  fun _ batch => Accepted (Some (len batch - 1)%Z).

(* ================================================================== *)
(** * Properties *)

(** ** [hashlib.md5] on its documented digests *)

Example md5_empty :
  MD5.hexdigest (Str.encode_utf8 "") = "d41d8cd98f00b204e9800998ecf8427e".
Proof. vm_compute. reflexivity. Qed.

Example md5_abc :
  MD5.hexdigest (Str.encode_utf8 "abc") = "900150983cd24fb0d6963f7d28e17f72".
Proof. vm_compute. reflexivity. Qed.

(** ** Strings: [split], [join] and the clean step *)

Section StringFacts.

Local Open Scope string_scope.
#[local] Arguments String.append !_ _ / : simpl nomatch.

Let nonspace : ascii -> bool := fun c => negb (Str.isspace c).

Lemma append_nil_r (s : string) : s ++ "" = s.
Proof. induction s as [|c s IH]; simpl; [reflexivity | now rewrite IH]. Qed.

Lemma append_assoc (a b c : string) : (a ++ b) ++ c = a ++ (b ++ c).
Proof. induction a as [|x a IH]; simpl; [reflexivity | now rewrite IH]. Qed.

Lemma is_empty_true (s : string) : Str.is_empty s = true <-> s = "".
Proof. destruct s; simpl; split; congruence. Qed.

Lemma is_empty_false (s : string) : Str.is_empty s = false <-> s <> "".
Proof. destruct s; simpl; split; congruence. Qed.

Lemma all_chars_app (p : ascii -> bool) (a b : string) :
  all_chars p (a ++ b) = all_chars p a && all_chars p b.
Proof.
  induction a as [|c a IH]; simpl; [reflexivity|].
  rewrite IH. now rewrite andb_assoc.
Qed.

(** [split] yields words only. *)
Lemma split_from_words (s w : string) :
  all_chars nonspace w = true -> Forall word (Str.split_from w s).
Proof.
  revert w. induction s as [|c s IH]; intros w Hw; simpl.
  - destruct (Str.is_empty w) eqn:E; constructor; [|constructor].
    split; [now apply is_empty_false | exact Hw].
  - destruct (Str.isspace c) eqn:Hc.
    + destruct (Str.is_empty w) eqn:E.
      * now apply IH.
      * constructor; [split; [now apply is_empty_false | exact Hw]|].
        now apply IH.
    + apply IH. rewrite all_chars_app, Hw. simpl.
      unfold nonspace. now rewrite Hc.
Qed.

Lemma split_words (s : string) : Forall word (Str.split s).
Proof. now apply split_from_words. Qed.

(** Reading a run of non-whitespace characters extends the current word. *)
Lemma split_from_run (w acc s : string) :
  all_chars nonspace w = true ->
  Str.split_from acc (w ++ s) = Str.split_from (acc ++ w) s.
Proof.
  revert acc. induction w as [|c w IH]; intros acc Hw; simpl.
  - now rewrite append_nil_r.
  - simpl in Hw. apply andb_prop in Hw as [Hc Hw].
    unfold nonspace in Hc. apply negb_true_iff in Hc. rewrite Hc.
    rewrite IH by exact Hw. now rewrite append_assoc.
Qed.

(** [split] undoes [join] on words. *)
Lemma split_join (ws : list string) :
  Forall word ws -> Str.split (Str.join " " ws) = ws.
Proof.
  unfold Str.split. induction 1 as [|w ws [Hne Hw] Hws IH]; [reflexivity|].
  destruct ws as [|w2 ws].
  - simpl. rewrite <- (append_nil_r w) at 1.
    rewrite split_from_run by exact Hw. simpl.
    apply is_empty_false in Hne. now rewrite Hne.
  - change (Str.join " " (w :: w2 :: ws))
      with (w ++ " " ++ Str.join " " (w2 :: ws)).
    rewrite split_from_run by exact Hw.
    change (" " ++ Str.join " " (w2 :: ws))
      with (String " " (Str.join " " (w2 :: ws))).
    cbn [Str.split_from append]. 
    replace (Str.isspace " ") with true by reflexivity.
    apply is_empty_false in Hne. rewrite Hne. now rewrite IH.
Qed.

(** A string made of words and single blanks: no character is whitespace
    other than the blank. *)
Let inner : ascii -> bool :=
  fun c => negb (Str.isspace c) || Ascii.eqb c " ".

Lemma nonspace_inner (w : string) :
  all_chars nonspace w = true -> all_chars inner w = true.
Proof.
  induction w as [|c w IH]; simpl; [reflexivity|].
  intros H. apply andb_prop in H as [Hc Hw]. rewrite IH by exact Hw.
  unfold inner. unfold nonspace in Hc. now rewrite Hc.
Qed.

Lemma join_inner (ws : list string) :
  Forall word ws -> all_chars inner (Str.join " " ws) = true.
Proof.
  induction 1 as [|w ws [_ Hw] Hws IH]; [reflexivity|].
  destruct ws as [|w2 ws]; [now apply nonspace_inner|].
  change (Str.join " " (w :: w2 :: ws))
    with (w ++ String " " (Str.join " " (w2 :: ws))).
  rewrite all_chars_app, nonspace_inner by exact Hw.
  change (all_chars inner (String " " (Str.join " " (w2 :: ws))))
    with (inner " " && all_chars inner (Str.join " " (w2 :: ws))).
  now rewrite IH.
Qed.

Lemma prefix_head_differs (a c : ascii) (old s : string) :
  a <> c -> String.prefix (String a old) (String c s) = false.
Proof.
  intros Hne. cbn [String.prefix].
  destruct (ascii_dec a c) as [E|_]; [contradiction | reflexivity].
Qed.

(** No run of three line feeds to replace where there is no line feed. *)
Lemma replace_no_newline (new s : string) :
  all_chars inner s = true ->
  Str.replace (String "010" (String "010" (String "010" ""))) new s = s.
Proof.
  unfold Str.replace. induction s as [|c s IH]; [reflexivity|].
  cbn [all_chars Str.replace_from]. intros H.
  apply andb_prop in H as [Hc Hs].
  rewrite prefix_head_differs, IH; [reflexivity | exact Hs |].
  intros <-. discriminate Hc.
Qed.

Lemma rstrip_word (w : string) :
  all_chars nonspace w = true -> Str.rstrip w = w.
Proof.
  induction w as [|c w IH]; [reflexivity|]. simpl. intros H.
  apply andb_prop in H as [Hc Hw]. rewrite IH by exact Hw.
  unfold nonspace in Hc. apply negb_true_iff in Hc. rewrite Hc.
  now rewrite andb_false_r.
Qed.

Lemma rstrip_ends_with_word (a w : string) :
  word w -> Str.rstrip (a ++ w) = a ++ w.
Proof.
  intros [Hne Hw]. induction a as [|c a IH]; simpl.
  - now apply rstrip_word.
  - rewrite IH. destruct (a ++ w) eqn:E; [|reflexivity].
    destruct a; simpl in E; [contradiction | discriminate].
Qed.

Lemma rstrip_join (ws : list string) :
  Forall word ws -> Str.rstrip (Str.join " " ws) = Str.join " " ws.
Proof.
  induction 1 as [|w ws Hw Hws IH]; [reflexivity|].
  destruct ws as [|w2 ws].
  - simpl. rewrite <- (append_nil_r w) at 1 2.
    change (Str.rstrip ("" ++ w ++ "") = "" ++ w ++ "").
    rewrite append_nil_r. now apply (rstrip_ends_with_word "").
  - change (Str.join " " (w :: w2 :: ws))
      with (w ++ " " ++ Str.join " " (w2 :: ws)).
    remember (Str.join " " (w2 :: ws)) as j.
    assert (Hj : exists a l, j = a ++ l /\ word l).
    { subst j. clear IH Hw w. revert w2 Hws.
      induction ws as [|w3 ws IHws]; intros w2 Hws.
      - exists "", w2. split; [reflexivity | now inversion Hws].
      - inversion Hws as [|? ? Hw2 Hrest]; subst.
        destruct (IHws w3 Hrest) as (a & l & E & Hl).
        exists (w2 ++ " " ++ a), l. split; [|exact Hl].
        change (Str.join " " (w2 :: w3 :: ws))
          with (w2 ++ " " ++ Str.join " " (w3 :: ws)).
        rewrite E. now rewrite !append_assoc. }
    destruct Hj as (a & l & -> & Hl).
    rewrite <- !append_assoc. now apply rstrip_ends_with_word.
Qed.

Lemma lstrip_join (ws : list string) :
  Forall word ws -> Str.lstrip (Str.join " " ws) = Str.join " " ws.
Proof.
  intros H. destruct H as [|w ws [Hne Hw] Hws]; [reflexivity|].
  destruct w as [|c w]; [contradiction|].
  simpl in Hw. apply andb_prop in Hw as [Hc _].
  unfold nonspace in Hc. apply negb_true_iff in Hc.
  destruct ws; simpl; now rewrite Hc.
Qed.

(** The clean step comes to joining the words with single blanks. *)
Lemma clean_text_join (s : string) :
  clean_text s = Str.join " " (Str.split s).
Proof.
  unfold clean_text, Str.strip.
  pose proof (split_words s) as H.
  rewrite replace_no_newline by now apply join_inner.
  rewrite lstrip_join by exact H. now apply rstrip_join.
Qed.

Lemma clean_text_idempotent (s : string) :
  clean_text (clean_text s) = clean_text s.
Proof.
  rewrite !clean_text_join. now rewrite split_join by apply split_words.
Qed.

End StringFacts.

(** ** Fingerprints (claim C1) *)

(** Splits the first [match] or [if] found in hypothesis [H] and drops the
    branches that contradict it. *)
Ltac split_match H :=
  match type of H with
  | context [match ?x with _ => _ end] => destruct x eqn:?; try discriminate H
  end.

Lemma Article_init_constructed now t u c s a p so ca i l tg :
  constructed (Article_init now t u c s a p so ca i l tg).
Proof. reflexivity. Qed.

(** The polling-API connector stores the title cleaned. *)
Lemma api_article_normalized detect category now item a :
  _parse_api_article detect category now item = Ok (Some a) ->
  constructed a /\ normalized (title a).
Proof.
  unfold _parse_api_article, bind. intros H.
  repeat split_match H.
  all: injection H as <-; split; [reflexivity|]; apply clean_text_idempotent.
Qed.

(** The feed connector stores the title stripped, not cleaned. *)
Lemma feed_article_title cfg detect source_name category now entry a :
  _parse_entry cfg detect source_name category now entry = Ok (Some a) ->
  constructed a
  /\ exists t, get (e_title entry) (Some "") = Some t /\ title a = Str.strip t.
Proof.
  unfold _parse_entry, bind, as_str. intros H.
  destruct (get (e_title entry) (Some "")) as [t|] eqn:Et; [|discriminate H].
  repeat split_match H.
  all: injection H as <-; split; [reflexivity|]; now exists t.
Qed.

(** Two items of the polling API with equal cleaned titles and equal URLs
    give articles with equal fingerprints. *)
Lemma api_fingerprints_agree detect c1 c2 n1 n2 i1 i2 A B :
  _parse_api_article detect c1 n1 i1 = Ok (Some A) ->
  _parse_api_article detect c2 n2 i2 = Ok (Some B) ->
  clean_text (title A) = clean_text (title B) ->
  url A = url B ->
  content_hash A = content_hash B.
Proof.
  intros HA HB Ht Hu.
  apply api_article_normalized in HA as [CA NA].
  apply api_article_normalized in HB as [CB NB].
  unfold constructed, normalized in *.
  rewrite CA, CB, <- NA, <- NB, Ht. now rewrite Hu.
Qed.

(** C1, as amended.  Two articles whose titles are stored normalized, as the
    polling-API connector stores them, and whose normalized titles and URLs
    are equal have equal fingerprints, whatever their content, summary,
    author, timestamps and source are. *)
Theorem fingerprint_of_normalized_title_and_url (A B : Article) :
  constructed A -> constructed B ->
  normalized (title A) -> normalized (title B) ->
  clean_text (title A) = clean_text (title B) ->
  url A = url B ->
  content_hash A = content_hash B.
Proof.
  unfold constructed, normalized. intros HA HB NA NB Ht Hu.
  rewrite HA, HB. rewrite NA, NB in Ht. now rewrite Ht, Hu.
Qed.

Lemma fingerprint_of_normalized_title_and_url_witness :
  let A := Article_init 0 "Rates rise" "https://example.com/rates"
             "The bank moved." "Bank." (Some "A. Writer") (Some 0%Z)
             (Some "bbc") None None "en" None in
  let B := Article_init 7 "Rates rise" "https://example.com/rates"
             "Markets reacted to the move." "" None None
             (Some "reuters") (Some "business") None "en" (Some ["rates"]) in
  content A <> content B /\ source A <> source B
  /\ content_hash A = content_hash B.
Proof.
  intros A B. split; [discriminate|]. split; [discriminate|].
  apply (fingerprint_of_normalized_title_and_url A B);
    solve [apply Article_init_constructed | vm_compute; reflexivity].
Defined.

(** C1 as stated fails on the feed connector: two entries whose titles
    differ by a doubled blank have equal normalized titles and equal URLs,
    and different fingerprints. *)
Lemma feed_fingerprints_differ :
  let A := rates_article "Rates  rise" in
  let B := rates_article "Rates rise" in
  _parse_entry settings detect_en "bbc" None 0
    (rates_entry "Rates  rise" NoDate) = Ok (Some A)
  /\ _parse_entry settings detect_en "bbc" None 0
       (rates_entry "Rates rise" NoDate) = Ok (Some B)
  /\ clean_text (title A) = clean_text (title B)
  /\ url A = url B
  /\ content_hash A <> content_hash B.
Proof.
  vm_compute. repeat split; try reflexivity. discriminate.
Qed.

(** ** [fetch_page]: attempts, delays and traces (claims C2, C4, C5) *)

Section FetchPageFacts.

Variable cfg : Settings.
Variable server : nat -> string -> Reply.

(** The body of [fetch_page], with the request already laid out. *)
Lemma fetch_page_eq url retry w :
  fetch_page cfg server url retry w =
  let w1 := w ++ [EvGet url] in
  match raise_for_status (server (requests_made w) url) with
  | Ok text =>
      match sleep (DOWNLOAD_DELAY cfg) w1 with
      | (Ok _, w2) => (Ok (Some text), w2)
      | (Raise e, w2) => (Raise e, w2)
      end
  | Raise _ =>
      if (retry <? MAX_RETRIES cfg)%Z then
        match sleep (inject_Z (RETRY_DELAY cfg)) w1 with
        | (Ok _, w2) => fetch_page cfg server url (retry + 1) w2
        | (Raise e, w2) => (Raise e, w2)
        end
      else (Ok None, w1)
  end.
Proof.
  rewrite fetch_page_equation_1. unfold session_get.
  cbn [fetch_page_unfold_clause_1].
  destruct (raise_for_status (server (requests_made w) url)) as [text|e]; cbn.
  - destruct (sleep (DOWNLOAD_DELAY cfg) (w ++ [EvGet url]))
      as [[[]|e] w2]; reflexivity.
  - destruct (Z_lt_dec retry (MAX_RETRIES cfg)) as [Hlt|Hge]; cbn.
    + rewrite (proj2 (Z.ltb_lt _ _) Hlt).
      destruct (sleep (inject_Z (RETRY_DELAY cfg)) (w ++ [EvGet url]))
        as [[[]|e'] w2]; reflexivity.
    + now rewrite (proj2 (Z.ltb_nlt _ _) Hge).
Qed.

Lemma sleep_cases d w :
  sleep d w = (Ok tt, w ++ [EvSleep d]) \/ sleep d w = (Raise ValueError, w).
Proof. unfold sleep. destruct (Qle_bool 0 d); auto. Qed.

Lemma sleep_nonnegative (z : Z) w :
  (0 <= z)%Z -> sleep (inject_Z z) w = (Ok tt, w ++ [EvSleep (inject_Z z)]).
Proof.
  intros Hz. unfold sleep.
  assert (E : Qle_bool 0 (inject_Z z) = true).
  { apply Qle_bool_iff. unfold Qle. simpl. lia. }
  now rewrite E.
Qed.

Lemma requests_made_app w tr :
  requests_made (w ++ tr) = requests_made w + requests_made tr.
Proof.
  induction w as [|[u|d] w IH]; simpl; [reflexivity | now rewrite IH | exact IH].
Qed.

Lemma since_app w tr : since w (w ++ tr) = tr.
Proof. unfold since. induction w as [|e w IH]; [reflexivity | exact IH]. Qed.


(** A fetch whose every attempt fails: the retries left are all used and
    the answer is [None]. *)
Lemma fetch_page_failing url retry w :
  (0 <= RETRY_DELAY cfg)%Z ->
  (forall k, exists e, raise_for_status (server k url) = Raise e) ->
  fetch_page cfg server url retry w =
  (Ok None,
   w ++ failing_trace cfg url (Z.to_nat (MAX_RETRIES cfg - retry))).
Proof.
  intros Hd Hfail.
  remember (Z.to_nat (MAX_RETRIES cfg - retry)) as n eqn:Hn.
  revert retry w Hn. induction n as [|n IH]; intros retry w Hn;
    rewrite fetch_page_eq; cbv zeta;
    destruct (Hfail (requests_made w)) as [e ->].
  - replace (retry <? MAX_RETRIES cfg)%Z with false
      by (symmetry; apply Z.ltb_nlt; lia).
    reflexivity.
  - replace (retry <? MAX_RETRIES cfg)%Z with true
      by (symmetry; apply Z.ltb_lt; lia).
    rewrite sleep_nonnegative by exact Hd.
    rewrite (IH (retry + 1)%Z) by lia.
    cbn [failing_trace]. now rewrite <- !app_assoc.
Qed.

Lemma requests_made_failing_trace url n :
  requests_made (failing_trace cfg url n) = S n.
Proof. induction n as [|n IH]; simpl; [reflexivity | now rewrite IH]. Qed.

Lemma retry_delays_failing_trace url n :
  retry_delays (failing_trace cfg url n)
  = repeat (inject_Z (RETRY_DELAY cfg)) n.
Proof.
  induction n as [|n IH]; [reflexivity|].
  cbn [failing_trace retry_delays repeat].
  destruct n; cbn [failing_trace] in *; now rewrite <- IH.
Qed.


(** C2, as amended.  When every attempt fails, [fetch_page] invokes the
    request exactly [MAX_RETRIES + 1] times -- the first attempt and
    [MAX_RETRIES] retries -- and then returns [None]; it does not raise. *)
Theorem fetch_page_exhausts_retries url w :
  (0 <= MAX_RETRIES cfg)%Z ->
  (0 <= RETRY_DELAY cfg)%Z ->
  (forall k, exists e, raise_for_status (server k url) = Raise e) ->
  fst (fetch_page cfg server url 0 w) = Ok None
  /\ Z.of_nat (requests_made (since w (snd (fetch_page cfg server url 0 w))))
     = (MAX_RETRIES cfg + 1)%Z.
Proof.
  intros Hm Hd Hfail. rewrite fetch_page_failing by assumption.
  cbn [fst snd]. split; [reflexivity|].
  rewrite since_app, requests_made_failing_trace. lia.
Qed.






(** The retry delays of a fetch that fails throughout, one per retry. *)
Lemma retry_delays_when_failing url w :
  (0 <= MAX_RETRIES cfg)%Z ->
  (0 <= RETRY_DELAY cfg)%Z ->
  (forall k, exists e, raise_for_status (server k url) = Raise e) ->
  retry_delays (since w (snd (fetch_page cfg server url 0 w)))
  = repeat (inject_Z (RETRY_DELAY cfg)) (Z.to_nat (MAX_RETRIES cfg)).
Proof.
  intros Hm Hd Hfail. rewrite fetch_page_failing by assumption.
  cbn [snd]. rewrite since_app, retry_delays_failing_trace.
  now rewrite Z.sub_0_r.
Qed.

(** C5, as amended.  A response with a 4xx status, 429 or not, is an
    [HTTPError] like any other failure of the request: while retries are
    left, [fetch_page] waits [RETRY_DELAY] and issues the request again
    with one retry less. *)
Theorem client_error_is_retried url retry w status_code text :
  server (requests_made w) url = Response status_code text ->
  (400 <= status_code < 500)%Z ->
  (retry < MAX_RETRIES cfg)%Z ->
  (0 <= RETRY_DELAY cfg)%Z ->
  fetch_page cfg server url retry w
  = fetch_page cfg server url (retry + 1)
      (w ++ [EvGet url; EvSleep (inject_Z (RETRY_DELAY cfg))]).
Proof.
  intros Hs Hc Hr Hd. rewrite fetch_page_eq. cbv zeta.
  rewrite Hs. unfold raise_for_status.
  replace ((400 <=? status_code) && (status_code <? 600))%Z with true
    by (symmetry; apply andb_true_iff; split;
        [apply Z.leb_le | apply Z.ltb_lt]; lia).
  rewrite (proj2 (Z.ltb_lt _ _) Hr), sleep_nonnegative by exact Hd.
  now rewrite <- app_assoc.
Qed.

End FetchPageFacts.

Lemma fetch_page_exhausts_retries_witness :
  (0 <= MAX_RETRIES settings)%Z
  /\ (0 <= RETRY_DELAY settings)%Z
  /\ (forall k, exists e,
        raise_for_status (server_down k "https://example.com/") = Raise e)
  /\ fst (fetch_page settings server_down "https://example.com/" 0 [])
     = Ok None
  /\ Z.of_nat (requests_made
       (since [] (snd (fetch_page settings server_down
                         "https://example.com/" 0 []))))
     = (MAX_RETRIES settings + 1)%Z.
Proof.
  assert (H : forall k, exists e,
             raise_for_status (server_down k "https://example.com/") = Raise e)
    by (intros k; eexists; reflexivity).
  split; [vm_compute; discriminate|].
  split; [vm_compute; discriminate|].
  split; [exact H|].
  apply (fetch_page_exhausts_retries settings server_down
           "https://example.com/" []);
    [vm_compute; discriminate | vm_compute; discriminate | exact H].
Defined.

(** C2 as stated fails: with the settings of the file and a server that is
    down, the request is issued four times, not [MAX_RETRIES = 3] times, and
    the call returns [None] where the claim has it raise. *)
Lemma fetch_page_four_requests_then_None :
  let r := fetch_page settings server_down "https://example.com/" 0 [] in
  requests_made (snd r) = 4
  /\ Z.of_nat (requests_made (snd r)) <> MAX_RETRIES settings
  /\ fst r = Ok None
  /\ (forall e, fst r <> Raise e).
Proof.
  vm_compute. repeat split; try reflexivity; intros; discriminate.
Qed.



Lemma client_error_is_retried_witness :
  server_404 (requests_made []) "https://example.com/missing"
    = Response 404 "Not Found"
  /\ (400 <= 404 < 500)%Z
  /\ (0 < MAX_RETRIES settings)%Z
  /\ (0 <= RETRY_DELAY settings)%Z
  /\ fetch_page settings server_404 "https://example.com/missing" 0 []
     = fetch_page settings server_404 "https://example.com/missing" (0 + 1)
         ([] ++ [EvGet "https://example.com/missing";
                 EvSleep (inject_Z (RETRY_DELAY settings))]).
Proof.
  split; [reflexivity|]. split; [lia|].
  split; [vm_compute; reflexivity|]. split; [vm_compute; discriminate|].
  apply (client_error_is_retried settings server_404
           "https://example.com/missing" 0 [] 404 "Not Found");
    [reflexivity | lia | vm_compute; reflexivity | vm_compute; discriminate].
Defined.

(** C5 as stated fails: a server answering 404 throughout is asked four
    times by one [fetch_page], not once. *)
Lemma not_found_is_requested_four_times :
  let r := fetch_page settings server_404 "https://example.com/missing" 0 [] in
  (forall k, server_404 k "https://example.com/missing"
             = Response 404 "Not Found")
  /\ requests_made (snd r) = 4
  /\ requests_made (snd r) <> 1.
Proof.
  split; [reflexivity|]. vm_compute. split; [reflexivity | discriminate].
Qed.

(** ** Waits between consecutive requests (claim C9) *)

Section Politeness.

Variable cfg : Settings.
Variable server : nat -> string -> Reply.

Lemma waits_from_app cur a b :
  waits_from cur (a ++ b)
  = waits_from cur a ++ waits_from (pending cur a) b.
Proof.
  revert cur. induction a as [|[u|d] a IH]; intros cur; cbn.
  - reflexivity.
  - destruct cur; cbn; now rewrite IH.
  - apply IH.
Qed.

Lemma pending_app cur a b :
  pending cur (a ++ b) = pending (pending cur a) b.
Proof.
  revert cur. induction a as [|[u|d] a IH]; intros cur; cbn; auto.
Qed.

(** The rate ceiling plays no part in [fetch_page]. *)
Lemma fetch_page_ignores_rate rps url : forall n retry w,
  n = Z.to_nat (MAX_RETRIES cfg - retry) ->
  fetch_page (with_requests_per_second rps cfg) server url retry w
  = fetch_page cfg server url retry w.
Proof.
  induction n as [|n IH]; intros retry w Hn;
    rewrite (fetch_page_eq (with_requests_per_second rps cfg)),
            (fetch_page_eq cfg);
    cbv zeta;
    change (MAX_RETRIES (with_requests_per_second rps cfg))
      with (MAX_RETRIES cfg);
    change (RETRY_DELAY (with_requests_per_second rps cfg))
      with (RETRY_DELAY cfg);
    change (DOWNLOAD_DELAY (with_requests_per_second rps cfg))
      with (DOWNLOAD_DELAY cfg);
    destruct (raise_for_status (server (requests_made w) url)) as [text|e];
    try reflexivity;
    destruct (retry <? MAX_RETRIES cfg)%Z eqn:Hlt; try reflexivity;
    apply Z.ltb_lt in Hlt; [lia|].
  destruct (sleep (inject_Z (RETRY_DELAY cfg)) (w ++ [EvGet url]))
    as [[[]|e'] w2]; [|reflexivity].
  apply IH. lia.
Qed.

(** With delays that [time.sleep] accepts, a fetch is a run of failed
    attempts, each followed by the retry delay, closed either by a last
    failed attempt, with [None], or by a successful one and the download
    delay, with its text. *)
Lemma fetch_page_shape url : forall n retry w,
  n = Z.to_nat (MAX_RETRIES cfg - retry) ->
  (0 <= RETRY_DELAY cfg)%Z ->
  (0 <= DOWNLOAD_DELAY cfg)%Q ->
  exists j,
    fetch_page cfg server url retry w
    = (Ok None, w ++ failing_trace cfg url j)
    \/ exists text,
         fetch_page cfg server url retry w
         = (Ok (Some text),
            w ++ failing_trace cfg url j ++ [EvSleep (DOWNLOAD_DELAY cfg)]).
Proof.
  induction n as [|n IH]; intros retry w Hn Hr Hd;
    rewrite fetch_page_eq; cbv zeta;
    destruct (raise_for_status (server (requests_made w) url)) as [text|e].
  1, 3: exists 0; right; exists text; unfold sleep;
        apply Qle_bool_iff in Hd; rewrite Hd; cbn [failing_trace app];
        now rewrite <- app_assoc.
  - replace (retry <? MAX_RETRIES cfg)%Z with false
      by (symmetry; apply Z.ltb_nlt; lia).
    exists 0. now left.
  - replace (retry <? MAX_RETRIES cfg)%Z with true
      by (symmetry; apply Z.ltb_lt; lia).
    rewrite sleep_nonnegative by exact Hr.
    destruct (IH (retry + 1)%Z
                ((w ++ [EvGet url]) ++ [EvSleep (inject_Z (RETRY_DELAY cfg))])
                ltac:(lia) Hr Hd) as [j [E | [text E]]];
      exists (S j); [left | right; exists text]; rewrite E;
      cbn [failing_trace]; now rewrite <- !app_assoc.
Qed.

Lemma waits_from_failing_trace url j : forall ds,
  waits_from (Some ds) (failing_trace cfg url j)
  = ds :: repeat [inject_Z (RETRY_DELAY cfg)] j.
Proof.
  induction j as [|j IH]; intros ds; [reflexivity|].
  cbn [failing_trace waits_from option_map app repeat]. now rewrite IH.
Qed.

Lemma waits_failing_trace url j :
  waits (failing_trace cfg url j) = repeat [inject_Z (RETRY_DELAY cfg)] j.
Proof.
  destruct j as [|j]; [reflexivity|]. unfold waits.
  cbn [failing_trace waits_from option_map app].
  now rewrite waits_from_failing_trace.
Qed.

Lemma pending_failing_trace url j : forall cur,
  pending cur (failing_trace cfg url j) = Some [].
Proof.
  induction j as [|j IH]; intros cur; [reflexivity|].
  cbn [failing_trace pending option_map]. apply IH.
Qed.

Lemma total_sleep_app a b :
  (total_sleep (a ++ b) == total_sleep a + total_sleep b)%Q.
Proof.
  induction a as [|[u|d] a IH]; cbn [app total_sleep];
    [ring | exact IH | rewrite IH; ring].
Qed.

Lemma total_sleep_failing_trace url j :
  (total_sleep (failing_trace cfg url j)
   == inject_Z (Z.of_nat j) * inject_Z (RETRY_DELAY cfg))%Q.
Proof.
  induction j as [|j IH]; [cbn; ring|].
  cbn [failing_trace total_sleep]. rewrite IH.
  rewrite Nat2Z.inj_succ, <- Z.add_1_r, inject_Z_plus. ring.
Qed.

Lemma Qsum_single d : (Qsum [d] == d)%Q.
Proof. cbn. ring. Qed.

Lemma spacing_times_le (spacing delay : Q) j :
  (spacing <= delay)%Q ->
  (inject_Z (Z.of_nat j) * spacing <= inject_Z (Z.of_nat j) * delay)%Q.
Proof.
  intros H. rewrite (Qmult_comm _ spacing), (Qmult_comm _ delay).
  apply Qmult_le_compat_r; [exact H|].
  change 0%Q with (inject_Z 0). rewrite <- Zle_Qle. lia.
Qed.

(** C9, as amended.  [fetch_page] does not depend on
    [REQUESTS_PER_SECOND].  With delays that [time.sleep] accepts, every
    two consecutive requests of a fetch are separated by exactly one wait,
    of [RETRY_DELAY]; after its last request the fetch waits
    [DOWNLOAD_DELAY] when that request succeeded and takes no wait when the
    retries are used up.  So, when the stricter of the minimum delay and
    of the 1 / [REQUESTS_PER_SECOND] spacing is at most [RETRY_DELAY], the
    requests of a fetch are separated by at least that spacing and a fetch
    of [n] requests accumulates at least [n - 1] times that spacing of
    enforced waiting. *)
Theorem politeness_of_fetch_page url retry w :
  (0 <= RETRY_DELAY cfg)%Z ->
  (0 <= DOWNLOAD_DELAY cfg)%Q ->
  let r := fetch_page cfg server url retry w in
  let tr := since w (snd r) in
  let n := requests_made tr in
  (forall rps,
     fetch_page (with_requests_per_second rps cfg) server url retry w = r)
  /\ waits tr = repeat [inject_Z (RETRY_DELAY cfg)] (n - 1)
  /\ pending None tr
     = Some match fst r with
            | Ok (Some _) => [DOWNLOAD_DELAY cfg]
            | _ => []
            end
  /\ ((required_spacing cfg <= inject_Z (RETRY_DELAY cfg))%Q ->
      Forall (fun ds => (required_spacing cfg <= Qsum ds)%Q) (waits tr)
      /\ (inject_Z (Z.of_nat (n - 1)) * required_spacing cfg
          <= total_sleep tr)%Q).
Proof.
  intros Hr Hd r tr n. split.
  { intros rps. now apply (fetch_page_ignores_rate rps url _ retry w eq_refl). }
  destruct (fetch_page_shape url _ retry w eq_refl Hr Hd)
    as [j [E | [text E]]]; subst n tr r; rewrite E; cbn [fst snd];
    rewrite since_app.
  - rewrite requests_made_failing_trace, waits_failing_trace.
    replace (S j - 1) with j by lia.
    split; [reflexivity|]. split; [now rewrite pending_failing_trace|].
    intros Hs. split.
    + apply List.Forall_forall. intros ds Hin.
      apply repeat_spec in Hin as ->. now rewrite Qsum_single.
    + rewrite total_sleep_failing_trace. now apply spacing_times_le.
  - rewrite requests_made_app, requests_made_failing_trace.
    cbn [requests_made]. replace (S j + 0 - 1) with j by lia.
    unfold waits. rewrite waits_from_app, pending_app.
    fold (waits (failing_trace cfg url j)).
    rewrite waits_failing_trace, pending_failing_trace.
    cbn [waits_from pending option_map app]. rewrite app_nil_r.
    split; [reflexivity|]. split; [reflexivity|].
    intros Hs. split.
    + apply List.Forall_forall. intros ds Hin.
      apply repeat_spec in Hin as ->. now rewrite Qsum_single.
    + rewrite total_sleep_app, total_sleep_failing_trace.
      cbn [total_sleep].
      pose proof (spacing_times_le _ _ j Hs). lra.
Qed.

End Politeness.

Lemma politeness_of_fetch_page_witness :
  let cfg := with_max_retries 9 settings in
  let tr := snd (fetch_page cfg server_down "https://example.com/" 0 []) in
  (0 <= RETRY_DELAY cfg)%Z
  /\ (0 <= DOWNLOAD_DELAY cfg)%Q
  /\ (required_spacing cfg <= inject_Z (RETRY_DELAY cfg))%Q
  /\ requests_made tr = 10
  /\ waits tr = repeat [inject_Z (RETRY_DELAY cfg)] (10 - 1)
  /\ pending None tr = Some []
  /\ Forall (fun ds => (required_spacing cfg <= Qsum ds)%Q) (waits tr)
  /\ (inject_Z (Z.of_nat (10 - 1)) * required_spacing cfg <= total_sleep tr)%Q
  /\ (4.5 <= inject_Z (Z.of_nat (10 - 1)) * required_spacing cfg)%Q.
Proof.
  intros cfg tr.
  assert (H1 : (0 <= RETRY_DELAY cfg)%Z) by (vm_compute; discriminate).
  assert (H2 : (0 <= DOWNLOAD_DELAY cfg)%Q) by (vm_compute; discriminate).
  assert (H3 : (required_spacing cfg <= inject_Z (RETRY_DELAY cfg))%Q)
    by (vm_compute; discriminate).
  assert (Hn : requests_made tr = 10) by (vm_compute; reflexivity).
  assert (Hf : fst (fetch_page cfg server_down "https://example.com/" 0 [])
               = Ok None) by (vm_compute; reflexivity).
  pose proof (politeness_of_fetch_page cfg server_down
                "https://example.com/" 0 [] H1 H2) as H.
  cbv zeta in H. change (since [] ?x) with x in H. fold tr in H.
  rewrite Hn, Hf in H. destruct H as (_ & Hw & Hp & Hs).
  destruct (Hs H3) as [Hall Htotal].
  repeat (split; [assumption|]). vm_compute. discriminate.
Defined.

(** C9 as stated fails.  The rate ceiling is not enforced: with at most one
    request per ten seconds allowed, a fetch against a server that is down
    issues its retries five seconds apart.  Nor is the minimum delay
    enforced between retries: with [RETRY_DELAY = 0] and nine retries, a
    source limited to 2 requests per second is sent ten requests with no
    waiting at all, where 4.5 seconds are claimed. *)
Lemma rate_ceiling_is_not_enforced :
  let slow := with_requests_per_second (1 # 10) settings in
  let tr := snd (fetch_page slow server_down "https://example.com/" 0 []) in
  let eager := with_retry_delay 0 (with_max_retries 9 settings) in
  let tr' := snd (fetch_page eager server_down "https://example.com/" 0 []) in
  (required_spacing slow == 10)%Q
  /\ nth_error (waits tr) 0 = Some [inject_Z 5]
  /\ ~ (required_spacing slow <= Qsum [inject_Z 5])%Q
  /\ (REQUESTS_PER_SECOND eager == 2)%Q
  /\ requests_made tr' = 10
  /\ (total_sleep tr' == 0)%Q
  /\ ~ (4.5 <= total_sleep tr')%Q.
Proof.
  cbv zeta.
  split; [vm_compute; reflexivity|].
  split; [vm_compute; reflexivity|].
  split; [vm_compute; intros H; now apply H|].
  split; [vm_compute; reflexivity|].
  split; [vm_compute; reflexivity|].
  split; [vm_compute; reflexivity|].
  vm_compute. intros H. now apply H.
Qed.

(** ** Delivery in batches (claim C3) *)

Section DeliveryFacts.

Context {A : Type}.
Variable cfg : Settings.
Variable backend : nat -> list A -> Delivery.
Variable may_retry : bool.

(** The loop posts the batches in order up to the first one the backend
    refuses, and leaves through [self.retry] there. *)
Lemma send_batches_stops pre : forall k bad post sent_count posted exc,
  (forall i b, nth_error pre i = Some b ->
               exists created, backend (k + i) b = Accepted created) ->
  backend (k + List.length pre) bad = Rejected exc ->
  send_batches backend may_retry k (pre ++ bad :: post) sent_count posted
  = (Raise (self_retry may_retry exc), posted ++ pre ++ [bad]).
Proof.
  induction pre as [|b pre IH]; intros k bad post sent_count posted exc Hpre Hbad.
  - cbn in *. rewrite Nat.add_0_r in Hbad. now rewrite Hbad.
  - cbn [app send_batches].
    destruct (Hpre 0 b eq_refl) as [created Hb].
    rewrite Nat.add_0_r in Hb. rewrite Hb.
    rewrite (IH (S k) bad post _ _ exc).
    + now rewrite <- app_assoc.
    + intros i b' Hi. replace (S k + i) with (k + S i) by lia.
      now apply Hpre.
    + cbn [List.length] in Hbad.
      now replace (S k + List.length pre) with (k + S (List.length pre)) by lia.
Qed.

(** When the backend takes every batch, all are posted and the count has
    grown by what the backend reported for each, a batch counting for its
    length when the answer has no [created]. *)
Lemma send_batches_all_accepted batches : forall k sent_count posted,
  (forall i b, nth_error batches i = Some b ->
               exists created, backend (k + i) b = Accepted created) ->
  send_batches backend may_retry k batches sent_count posted
  = (Ok (sent_count + created_total backend k batches)%Z, posted ++ batches).
Proof.
  induction batches as [|b batches IH]; intros k sent_count posted Hall.
  - cbn. now rewrite Z.add_0_r, app_nil_r.
  - cbn [send_batches created_total].
    destruct (Hall 0 b eq_refl) as [created Hb].
    rewrite Nat.add_0_r in Hb. rewrite Hb.
    rewrite IH.
    + now rewrite <- app_assoc, Z.add_assoc.
    + intros i b' Hi. replace (S k + i) with (k + S i) by lia.
      now apply Hall.
Qed.

(** The loop ends with a count only if the backend took every batch. *)
Lemma send_batches_counted batches : forall k sent_count posted sent,
  fst (send_batches backend may_retry k batches sent_count posted) = Ok sent ->
  forall i b, nth_error batches i = Some b ->
              exists created, backend (k + i) b = Accepted created.
Proof.
  induction batches as [|b batches IH]; intros k sent_count posted sent H i b' Hi.
  - now destruct i.
  - cbn [send_batches] in H.
    destruct (backend k b) as [created|exc] eqn:Hb; [|discriminate H].
    destruct i as [|i].
    + injection Hi as <-. rewrite Nat.add_0_r. now exists created.
    + replace (k + S i) with (S k + i) by lia.
      exact (IH _ _ _ _ H i b' Hi).
Qed.

(** C3, as amended.  One run posts the batches in order up to the first
    one that the backend refuses; there the run is left through
    [self.retry], which raises: the batches after it are not attempted in
    this run and no count of sent articles is returned.  When the backend
    takes every batch the run posts them all and returns the sum of the
    [created] counts it reported, a batch counting for its length when the
    answer has none; and a run returns a count in that case only. *)
Theorem delivery_stops_at_first_refused_batch articles batches :
  articles <> [] ->
  make_batches cfg articles = Ok batches ->
  let r := send_articles_to_backend cfg backend may_retry articles in
  (forall pre bad post exc,
     batches = pre ++ bad :: post ->
     (forall i b, nth_error pre i = Some b ->
                  exists created, backend i b = Accepted created) ->
     backend (List.length pre) bad = Rejected exc ->
     r = (Raise (self_retry may_retry exc), pre ++ [bad]))
  /\ ((forall i b, nth_error batches i = Some b ->
                   exists created, backend i b = Accepted created) ->
      r = (Ok (created_total backend 0 batches), batches))
  /\ (forall sent, fst r = Ok sent ->
      forall i b, nth_error batches i = Some b ->
                  exists created, backend i b = Accepted created).
Proof.
  intros Hne Hb r. subst r. unfold send_articles_to_backend.
  destruct articles as [|a articles]; [contradiction|].
  rewrite Hb. split; [|split].
  - intros pre bad post exc -> Hpre Hbad. now apply send_batches_stops.
  - intros Hall. now rewrite send_batches_all_accepted.
  - intros sent H i b Hi.
    exact (send_batches_counted batches 0 0%Z [] sent H i b Hi).
Qed.

End DeliveryFacts.

Lemma delivery_stops_at_first_refused_batch_witness :
  job <> []
  /\ make_batches settings job = Ok [batch1; batch2; batch3]
  /\ (forall i b, nth_error [batch1] i = Some b ->
        exists created, backend_refusing_batch2 i b = Accepted created)
  /\ backend_refusing_batch2 (List.length [batch1]) batch2 = Rejected HTTPError
  /\ send_articles_to_backend settings backend_refusing_batch2 true job
     = (Raise (self_retry true HTTPError), [batch1; batch2])
  /\ (forall i b, nth_error [batch1; batch2; batch3] i = Some b ->
        exists created, backend_skipping_one i b = Accepted created)
  /\ send_articles_to_backend settings backend_skipping_one true job
     = (Ok (9 + 9 + 4)%Z, [batch1; batch2; batch3])
  /\ len job = 25%Z.
Proof.
  assert (Hne : job <> []) by discriminate.
  assert (Hb : make_batches settings job = Ok [batch1; batch2; batch3])
    by reflexivity.
  assert (H : forall i b, nth_error [batch1] i = Some b ->
            exists created, backend_refusing_batch2 i b = Accepted created).
  { intros [|[|i]] b Hi; try discriminate Hi.
    injection Hi as <-. now exists None. }
  assert (H' : forall i b, nth_error [batch1; batch2; batch3] i = Some b ->
            exists created, backend_skipping_one i b = Accepted created).
  { intros i b _. now eexists. }
  split; [exact Hne|]. split; [exact Hb|]. split; [exact H|].
  split; [reflexivity|]. split; [|split; [exact H'|split; [|reflexivity]]].
  - exact (proj1 (delivery_stops_at_first_refused_batch settings
                    backend_refusing_batch2 true job [batch1; batch2; batch3]
                    Hne Hb)
             [batch1] batch2 [batch3] HTTPError eq_refl H eq_refl).
  - exact (proj1 (proj2 (delivery_stops_at_first_refused_batch settings
                           backend_skipping_one true job
                           [batch1; batch2; batch3] Hne Hb)) H').
Defined.

(** C3 as stated fails: in a job of three batches whose second batch the
    backend refuses, the run posts the first two batches and raises; the
    third batch is not attempted and no count [size(batch1) + size(batch3)]
    comes back. *)
Lemma third_batch_is_not_attempted :
  let r := send_articles_to_backend settings backend_refusing_batch2 true job in
  make_batches settings job = Ok [batch1; batch2; batch3]
  /\ backend_refusing_batch2 2 batch3 = Accepted None
  /\ snd r = [batch1; batch2]
  /\ ~ In batch3 (snd r)
  /\ fst r = Raise (Retry 60)
  /\ fst r <> Ok (len batch1 + len batch3)%Z.
Proof.
  vm_compute. repeat split; try reflexivity; try discriminate.
  intros [H|[H|[]]]; discriminate H.
Qed.

(** ** The connectors: stale and malformed entries (claim C8) *)

Section FeedFacts.

Variable cfg : Settings.
Variable detect : string -> option string.
Variable source_name : string.
Variable category : option string.

Let parse := _parse_entry cfg detect source_name category.
Let scrape := scrape_entries cfg detect source_name category.

Lemma is_recent_stale now t : stale cfg now t -> is_recent cfg now t = false.
Proof. unfold stale, is_recent. intros H. apply Z.ltb_ge. exact H. Qed.

(** The feed connector turns no stale entry into an article. *)
Lemma parse_entry_drops_stale now entry t a :
  e_published_parsed entry = Date t ->
  stale cfg now t ->
  parse now entry <> Ok (Some a).
Proof.
  intros Hp Hs H. unfold parse, _parse_entry, bind in H.
  rewrite Hp in H. change (default now (parsed_date (Date t))) with t in H.
  rewrite (is_recent_stale _ _ Hs) in H. cbn [negb] in H.
  repeat split_match H.
Qed.

Lemma scrape_entries_app xs ys : scrape (xs ++ ys) = scrape xs ++ scrape ys.
Proof.
  unfold scrape. induction xs as [|[now entry] xs IH]; [reflexivity|].
  cbn [app scrape_entries].
  destruct (_parse_entry cfg detect source_name category now entry)
    as [[a|]|e]; cbn [app]; now rewrite IH.
Qed.


(** The fetch returns, in the order of the feed, the articles of the
    entries whose parse yields one; the other entries cost nothing but
    themselves. *)
Lemma rss_scrape_parsed_entries entries :
  rss_scrape cfg detect source_name category (FeedParsed entries)
  = omap (fun '(now, entry) => article_of (parse now entry)) entries.
Proof.
  cbn [rss_scrape]. induction entries as [|[now entry] entries IH];
    [reflexivity|].
  cbn [scrape_entries omap list_omap]. fold parse. rewrite IH.
  now destruct (parse now entry) as [[a|]|e].
Qed.

(** C8.  A feed entry whose parse raises is passed over: every entry of
    the feed that parses to an article has that article in the list the
    fetch returns, whatever the other entries of the feed do. *)
Theorem malformed_entry_does_not_abort_fetch entries now entry a :
  In (now, entry) entries ->
  _parse_entry cfg detect source_name category now entry = Ok (Some a) ->
  In a (rss_scrape cfg detect source_name category (FeedParsed entries)).
Proof.
  intros Hin Hp. cbn [rss_scrape].
  induction entries as [|[now' entry'] entries IH]; [contradiction|].
  cbn [scrape_entries]. destruct Hin as [[= -> ->]|Hin].
  - rewrite Hp. now left.
  - destruct (_parse_entry cfg detect source_name category now' entry')
      as [[a'|]|e]; [right|..]; now apply IH.
Qed.

End FeedFacts.

Lemma malformed_entry_does_not_abort_fetch_witness :
  let entries := [ (0%Z, rates_entry "Rates rise" NoDate);
                   (0%Z, broken_entry);
                   (0%Z, rates_entry "Rates  rise" (Date 0)) ] in
  _parse_entry settings detect_en "bbc" None 0 broken_entry
    = Raise AttributeError
  /\ In (0%Z, rates_entry "Rates  rise" (Date 0)) entries
  /\ _parse_entry settings detect_en "bbc" None 0
       (rates_entry "Rates  rise" (Date 0))
     = Ok (Some (rates_article "Rates  rise"))
  /\ In (rates_article "Rates  rise")
       (rss_scrape settings detect_en "bbc" None (FeedParsed entries)).
Proof.
  intros entries.
  assert (Hin : In (0%Z, rates_entry "Rates  rise" (Date 0)) entries)
    by (right; right; left; reflexivity).
  assert (Hp : _parse_entry settings detect_en "bbc" None 0
                 (rates_entry "Rates  rise" (Date 0))
               = Ok (Some (rates_article "Rates  rise")))
    by (vm_compute; reflexivity).
  split; [vm_compute; reflexivity|]. split; [exact Hin|]. split; [exact Hp|].
  exact (malformed_entry_does_not_abort_fetch settings detect_en "bbc" None
           entries 0 _ _ Hin Hp).
Defined.

(** ** [run] returns valid articles only (claim C10) *)

Section RunFacts.

Variable cfg : Settings.

Lemma keep_valid_sound lookup articles : forall kept,
  keep_valid lookup cfg articles = Ok kept ->
  Forall (fun a => is_valid_via lookup cfg a = Ok true) kept.
Proof.
  induction articles as [|a articles IH]; intros kept H; cbn in H.
  - injection H as <-. constructor.
  - unfold validate_article_via, bind in H.
    destruct (is_valid_via lookup cfg a) as [[|]|e] eqn:Ea; [..|discriminate H];
      destruct (keep_valid lookup cfg articles) as [kept'|e']; try discriminate H;
      injection H as <-; [constructor; [exact Ea|] |]; now apply IH.
Qed.

Lemma run_via_sound lookup scraped :
  Forall (fun a => is_valid_via lookup cfg a = Ok true)
         (run_via lookup cfg scraped).
Proof.
  unfold run_via, bind. destruct scraped as [articles|e]; [|constructor].
  destruct (keep_valid lookup cfg articles) as [kept|e] eqn:E; [|constructor].
  now apply (keep_valid_sound lookup articles).
Qed.

(** With the helpers of the module, [is_valid] answers [True] exactly on
    the articles that the predicate of the design notes describes. *)
Lemma is_valid_config_module a :
  is_valid_via (config_module cfg) cfg a = Ok true <-> article_ok cfg a.
Proof.
  unfold is_valid_via, article_ok.
  change (config_module cfg "is_allowed_language")
    with (Ok (is_allowed_language cfg)).
  change (config_module cfg "is_blacklisted") with (Ok (is_blacklisted cfg)).
  cbn [bind].
  destruct (title a) as [|c t] eqn:Et; cbn [Str.is_empty orb].
  { split; [discriminate | now intros [H _]]. }
  destruct (url a) as [|d u] eqn:Eu; cbn [Str.is_empty].
  { split; [discriminate | now intros (_ & H & _)]. }
  destruct (len (Str.split (content a)) <? MIN_ARTICLE_LENGTH cfg)%Z eqn:Hw.
  { apply Z.ltb_lt in Hw. split; [discriminate | intros (_ & _ & H & _); lia]. }
  apply Z.ltb_ge in Hw.
  unfold is_allowed_language, is_blacklisted.
  destruct (existsb (String.eqb (language a)) (ALLOWED_LANGUAGES cfg)) eqn:Hl;
    cbn [negb].
  - apply existsb_exists in Hl as (l & Hin & Hl).
    apply String.eqb_eq in Hl as <-.
    match goal with
    | |- context [existsb ?f (BLACKLIST_KEYWORDS cfg)] =>
        destruct (existsb f (BLACKLIST_KEYWORDS cfg)) eqn:Hb
    end.
    + apply existsb_exists in Hb as (k & Hk & Hb).
      split; [discriminate|]. intros (_ & _ & _ & _ & H).
      rewrite (H k Hk) in Hb. discriminate Hb.
    + split; [|reflexivity]. intros _.
      repeat split; try discriminate; try assumption.
      intros k Hk. destruct (Str.contains k _) eqn:Hc; [|reflexivity].
      exfalso. apply not_true_iff_false in Hb. apply Hb.
      apply existsb_exists. now exists k.
  - split; [discriminate|]. intros (_ & _ & _ & Hin & _). exfalso.
    assert (E : existsb (String.eqb (language a)) (ALLOWED_LANGUAGES cfg)
                = true).
    { apply existsb_exists. exists (language a).
      split; [exact Hin | apply String.eqb_refl]. }
    rewrite E in Hl. discriminate Hl.
Qed.

(** Called through [settings], the helpers do not resolve: [is_valid]
    never answers [True]. *)
Lemma is_valid_never_true a : is_valid cfg a <> Ok true.
Proof.
  unfold is_valid, is_valid_via, settings_attribute, bind.
  destruct (_ || _); [discriminate|]. destruct (_ <? _)%Z; discriminate.
Qed.

(** So [run] has no article to return. *)
Lemma run_returns_nothing scraped : run cfg scraped = [].
Proof.
  pose proof (run_via_sound settings_attribute scraped) as H.
  fold (run cfg scraped) in H.
  destruct (run cfg scraped) as [|a l]; [reflexivity|].
  inversion H as [|? ? Ha _]. now destruct (is_valid_never_true a).
Qed.

(** C10.  Every article in the list that [run] returns is valid: title and
    URL not empty, at least [MIN_ARTICLE_LENGTH] words of content, a
    language among [ALLOWED_LANGUAGES] and no blacklisted keyword in the
    title.  This holds of [run] as written, where the helpers are looked
    up on [settings], and of [run] with the helpers taken from the
    module. *)
Theorem run_returns_valid_articles scraped :
  Forall (article_ok cfg) (run cfg scraped)
  /\ Forall (article_ok cfg) (run_via (config_module cfg) cfg scraped).
Proof.
  split.
  - rewrite run_returns_nothing. constructor.
  - eapply List.Forall_impl; [|apply run_via_sound].
    intros a. apply is_valid_config_module.
Qed.

End RunFacts.

(** ** Stale entries are not passed onward (claim C6) *)



(** ** Deduplication (claim C7) *)

Section DedupFacts.

Variable cfg : Settings.

Let step := dedup_step cfg.

Lemma NoDup_snoc {B} (l : list B) (x : B) :
  List.NoDup l -> ~ In x l -> List.NoDup (l ++ [x]).
Proof.
  induction l as [|y l IH]; intros Hl Hx; cbn.
  - constructor; [intros [] | constructor].
  - apply List.NoDup_cons_iff in Hl as [Hy Hl].
    apply List.NoDup_cons_iff. split.
    + rewrite in_app_iff. intros [H|[H|[]]]; [now apply Hy|].
      subst. apply Hx. now left.
    + apply IH; [exact Hl|]. intros H. apply Hx. now right.
Qed.

(** One turn of the loop: the recorded keys only grow, and the article is
    either dropped or kept, its checked keys then being new and
    recorded. *)
Lemma dedup_step_cases st a :
  seen_urls st ⊆ seen_urls (step st a)
  /\ seen_hashes st ⊆ seen_hashes (step st a)
  /\ (unique (step st a) = unique st
      \/ (unique (step st a) = unique st ++ [a]
          /\ (CHECK_DUPLICATES_BY_URL cfg = true ->
              (url a ∉ seen_urls st) /\ (url a ∈ seen_urls (step st a)))
          /\ (CHECK_DUPLICATES_BY_TITLE cfg = true ->
              (content_hash a ∉ seen_hashes st)
              /\ (content_hash a ∈ seen_hashes (step st a))))).
Proof.
  unfold step, dedup_step.
  destruct (CHECK_DUPLICATES_BY_URL cfg), (CHECK_DUPLICATES_BY_TITLE cfg);
    cbn [andb]; repeat case_bool_decide;
    cbn [unique seen_urls seen_hashes];
    (split; [set_solver|]); (split; [set_solver|]);
    first [ left; reflexivity
          | right; split; [reflexivity|];
            split; intros E; try discriminate E; split;
            solve [assumption | set_solver] ].
Qed.

(** One turn of the loop keeps the kept articles distinct and recorded. *)
Lemma dedup_step_invariant st a :
  distinct_keys cfg (unique st) -> records_kept cfg st ->
  distinct_keys cfg (unique (step st a)) /\ records_kept cfg (step st a).
Proof.
  unfold distinct_keys, records_kept. intros [Du Dt] [Ru Rt].
  destruct (dedup_step_cases st a) as (Su & Sh & [E | (E & Hu & Ht)]);
    rewrite E.
  - split; [split; assumption|].
    split; intros H b Hb; [apply Su | apply Sh]; auto.
  - repeat split; intros H.
    + rewrite map_app. apply NoDup_snoc; [auto|].
      rewrite in_map_iff. intros (b & Eb & Hb).
      apply (Hu H). rewrite <- Eb. now apply Ru.
    + rewrite map_app. apply NoDup_snoc; [auto|].
      rewrite in_map_iff. intros (b & Eb & Hb).
      apply (Ht H). rewrite <- Eb. now apply Rt.
    + intros b Hb. apply in_app_iff in Hb as [Hb|[<-|[]]];
        [apply Su; auto | now apply Hu].
    + intros b Hb. apply in_app_iff in Hb as [Hb|[<-|[]]];
        [apply Sh; auto | now apply Ht].
Qed.

Lemma dedup_fold_invariant xs : forall st,
  distinct_keys cfg (unique st) -> records_kept cfg st ->
  distinct_keys cfg (unique (fold_left step xs st)).
Proof.
  induction xs as [|a xs IH]; intros st D R; [exact D|].
  cbn [fold_left]. destruct (dedup_step_invariant st a D R) as [D' R'].
  now apply IH.
Qed.

(** What [deduplicate_articles] returns has no two articles with the same
    checked key. *)
Lemma deduplicated_distinct xs :
  distinct_keys cfg (deduplicate_articles cfg xs).
Proof.
  apply dedup_fold_invariant.
  - split; intros _; constructor.
  - split; intros _ a [].
Qed.

(** An article whose checked keys are not recorded is kept, and its
    checked keys are recorded. *)
Lemma dedup_step_keeps st a :
  unseen cfg st [a] ->
  unique (step st a) = unique st ++ [a]
  /\ seen_urls (step st a)
     = (if CHECK_DUPLICATES_BY_URL cfg
        then {[ url a ]} ∪ seen_urls st else seen_urls st)
  /\ seen_hashes (step st a)
     = (if CHECK_DUPLICATES_BY_TITLE cfg
        then {[ content_hash a ]} ∪ seen_hashes st else seen_hashes st).
Proof.
  unfold unseen, step, dedup_step. intros [Nu Nt].
  destruct (CHECK_DUPLICATES_BY_URL cfg), (CHECK_DUPLICATES_BY_TITLE cfg);
    cbn [andb]; repeat case_bool_decide;
    cbn [unique seen_urls seen_hashes]; try (repeat split; reflexivity).
  all: exfalso;
    solve [ now apply (Nu eq_refl a (or_introl eq_refl))
          | now apply (Nt eq_refl a (or_introl eq_refl)) ].
Qed.

(** On a list of distinct, unrecorded keys the loop keeps everything. *)
Lemma dedup_keeps_distinct ys : forall st,
  distinct_keys cfg ys -> unseen cfg st ys ->
  unique (fold_left step ys st) = unique st ++ ys.
Proof.
  induction ys as [|y ys IH]; intros st D N; [now rewrite app_nil_r|].
  cbn [fold_left].
  destruct D as [Du Dt], N as [Nu Nt].
  destruct (dedup_step_keeps st y) as (Eq & Eu & Eh).
  { split; intros H b [<-|[]]; [apply Nu | apply Nt]; auto; now left. }
  rewrite IH, Eq; [now rewrite <- app_assoc | |].
  - split; intros H; [specialize (Du H) | specialize (Dt H)];
      cbn [map] in *;
      [apply List.NoDup_cons_iff in Du as [_ Du]
      |apply List.NoDup_cons_iff in Dt as [_ Dt]]; assumption.
  - split; intros H b Hb.
    + rewrite Eu, H. specialize (Du H). cbn [map] in Du.
      apply List.NoDup_cons_iff in Du as [Du _].
      rewrite elem_of_union, elem_of_singleton. intros [E|E].
      * apply Du. rewrite <- E. now apply in_map.
      * apply (Nu H b); [now right | exact E].
    + rewrite Eh, H. specialize (Dt H). cbn [map] in Dt.
      apply List.NoDup_cons_iff in Dt as [Dt _].
      rewrite elem_of_union, elem_of_singleton. intros [E|E].
      * apply Dt. rewrite <- E. now apply in_map.
      * apply (Nt H b); [now right | exact E].
Qed.

Lemma deduplicate_distinct ys :
  distinct_keys cfg ys -> deduplicate_articles cfg ys = ys.
Proof.
  intros D. unfold deduplicate_articles. fold step.
  rewrite dedup_keeps_distinct; [reflexivity | exact D |].
  split; intros _ a _; apply not_elem_of_empty.
Qed.

(** Recording an article a second time changes nothing, as soon as one of
    the two checks is on. *)
Lemma dedup_step_twice st a :
  CHECK_DUPLICATES_BY_URL cfg || CHECK_DUPLICATES_BY_TITLE cfg = true ->
  step (step st a) a = step st a.
Proof.
  unfold step, dedup_step. intros H.
  destruct (CHECK_DUPLICATES_BY_URL cfg) eqn:U;
    destruct (CHECK_DUPLICATES_BY_TITLE cfg) eqn:T;
    try discriminate H; cbn [andb];
    repeat (case_bool_decide; cbn [unique seen_urls seen_hashes andb]);
    try reflexivity.
  all: exfalso;
    match goal with
    | Hn : _ ∉ _ |- _ =>
        apply Hn; try assumption;
        apply elem_of_union; left; now apply elem_of_singleton
    end.
Qed.

(** C7.  Deduplicating twice is deduplicating once.  When one of the two
    checks is on, as both are in the settings of the file, recording the
    same article twice leaves the state of the loop as recording it once
    does, and of two articles with the same URL and title only the first
    is kept. *)
Theorem deduplication_is_idempotent :
  (forall xs,
     deduplicate_articles cfg (deduplicate_articles cfg xs)
     = deduplicate_articles cfg xs)
  /\ (CHECK_DUPLICATES_BY_URL cfg || CHECK_DUPLICATES_BY_TITLE cfg = true ->
      (forall st a,
         dedup_step cfg (dedup_step cfg st a) a = dedup_step cfg st a)
      /\ (forall a b,
            constructed a -> constructed b ->
            url a = url b -> title a = title b ->
            deduplicate_articles cfg [a; b] = [a])).
Proof.
  split; [|intros H; split].
  - intros xs. apply deduplicate_distinct, deduplicated_distinct.
  - intros st a. now apply dedup_step_twice.
  - intros a b Ca Cb Eu Et.
    assert (Eh : content_hash b = content_hash a).
    { unfold constructed in *. now rewrite Ca, Cb, Eu, Et. }
    unfold deduplicate_articles. cbn [fold_left].
    destruct (dedup_step_keeps dedup_start a) as (Eq & Hu & Hh).
    { split; intros _ c _; apply not_elem_of_empty. }
    cbn [dedup_start unique seen_urls seen_hashes app] in Eq, Hu, Hh.
    unfold step in Eq, Hu, Hh.
    generalize dependent (dedup_step cfg dedup_start a). intros st1 Eq Hu Hh.
    unfold dedup_step. rewrite Hu, Hh, Eq, <- Eu, Eh.
    destruct (CHECK_DUPLICATES_BY_URL cfg), (CHECK_DUPLICATES_BY_TITLE cfg);
      try discriminate H; cbn [andb];
      repeat case_bool_decide; cbn [unique]; try reflexivity; try exact Eq.
    all: exfalso;
      match goal with
      | Hn : _ ∉ _ |- _ =>
          apply Hn; apply elem_of_union; left; now apply elem_of_singleton
      end.
Qed.

End DedupFacts.

Lemma deduplication_is_idempotent_witness :
  let a := rates_article "Rates rise" in
  let b := rates_article_reuters in
  CHECK_DUPLICATES_BY_URL settings || CHECK_DUPLICATES_BY_TITLE settings = true
  /\ content a <> content b
  /\ deduplicate_articles settings [a; b] = [a]
  /\ dedup_step settings (dedup_step settings (dedup_start) a) a
     = dedup_step settings dedup_start a
  /\ deduplicate_articles settings (deduplicate_articles settings [a; b; a])
     = deduplicate_articles settings [a; b; a].
Proof.
  intros a b.
  destruct (deduplication_is_idempotent settings) as [Hidem Hon].
  destruct (Hon eq_refl) as [Hstep Hpair].
  split; [reflexivity|]. split; [discriminate|].
  split; [apply Hpair; reflexivity|].
  split; [apply Hstep | apply Hidem].
Defined.

(* ================================================================== *)
(** * Further properties of the code *)

(** ** [clean_text], [lower] and the blacklist *)

Section TextFacts.

Local Open Scope string_scope.
#[local] Arguments String.append !_ _ / : simpl nomatch.

(** X1.  The clean step is the joining of the words with single blanks: the
    replacement of runs of line feeds and the final strip never change
    anything, and the result has the same words and is left alone by a
    second clean step. *)
Theorem clean_text_normal_form (s : string) :
  clean_text s = Str.join " " (Str.split s)
  /\ Str.split (clean_text s) = Str.split s
  /\ clean_text (clean_text s) = clean_text s.
Proof.
  split; [apply clean_text_join|]. split.
  - rewrite clean_text_join. apply split_join, split_words.
  - apply clean_text_idempotent.
Qed.

Lemma lower_char_idempotent (c : ascii) :
  Str.lower_char (Str.lower_char c) = Str.lower_char c.
Proof. destruct c as [[] [] [] [] [] [] [] []]; reflexivity. Qed.

Lemma lower_idempotent (s : string) : Str.lower (Str.lower s) = Str.lower s.
Proof.
  induction s as [|c s IH]; [reflexivity|].
  cbn [Str.lower]. now rewrite lower_char_idempotent, IH.
Qed.

Lemma chars_lower (s : string) (c : ascii) :
  In c (chars (Str.lower s)) -> Str.lower_char c = c.
Proof.
  induction s as [|d s IH]; cbn; [intros []|].
  intros [<-|H]; [apply lower_char_idempotent | now apply IH].
Qed.

Lemma prefix_chars (k h : string) (c : ascii) :
  String.prefix k h = true -> In c (chars k) -> In c (chars h).
Proof.
  revert h. induction k as [|a k IH]; intros h Hp Hc; [destruct Hc|].
  destruct h as [|b h]; [discriminate Hp|].
  cbn [String.prefix] in Hp. destruct (ascii_dec a b) as [<-|]; [|discriminate Hp].
  destruct Hc as [<-|Hc]; [now left | right; now apply IH].
Qed.

Lemma contains_chars (k h : string) (c : ascii) :
  Str.contains k h = true -> In c (chars k) -> In c (chars h).
Proof.
  induction h as [|b h IH]; cbn [Str.contains]; intros H Hc.
  - rewrite orb_false_r in H. now apply (prefix_chars k "").
  - apply orb_true_iff in H as [H|H]; [now apply (prefix_chars k (String b h))|].
    right. now apply IH.
Qed.

Lemma not_lower_has_upper (k : string) :
  Str.lower k <> k -> exists c, In c (chars k) /\ Str.lower_char c <> c.
Proof.
  induction k as [|a k IH]; cbn [Str.lower]; intros H; [now destruct H|].
  destruct (ascii_dec (Str.lower_char a) a) as [E|E].
  - destruct IH as (c & Hc & Hl); [intros E'; apply H; now rewrite E, E'|].
    exists c. split; [now right | exact Hl].
  - exists a. split; [now left | exact E].
Qed.

(** X2.  The blacklist is matched against the lowered title only: a keyword
    that is not itself in lower case matches no title, so a blacklist made
    of such keywords rejects nothing. *)
Theorem blacklist_keyword_with_capital_never_matches cfg (t : string) :
  (forall k, In k (BLACKLIST_KEYWORDS cfg) -> Str.lower k <> k) ->
  is_blacklisted cfg t = false.
Proof.
  intros H. unfold is_blacklisted.
  apply not_true_iff_false. intros E.
  apply existsb_exists in E as (k & Hk & Hc).
  destruct (not_lower_has_upper k (H k Hk)) as (c & Hin & Hl).
  apply Hl. apply (chars_lower t). now apply (contains_chars k).
Qed.

Lemma blacklist_keyword_with_capital_never_matches_witness :
  let cfg := with_blacklist ["Sponsored"] settings in
  (forall k, In k (BLACKLIST_KEYWORDS cfg) -> Str.lower k <> k)
  /\ is_blacklisted cfg "Sponsored: buy now" = false
  /\ is_blacklisted settings "Sponsored: buy now" = true.
Proof.
  intros cfg.
  assert (H : forall k, In k (BLACKLIST_KEYWORDS cfg) -> Str.lower k <> k).
  { intros k [<-|[]]. discriminate. }
  split; [exact H|]. split; [|reflexivity].
  apply (blacklist_keyword_with_capital_never_matches cfg _ H).
Defined.

(** X3.  The case of the title does not matter to the blacklist. *)
Theorem blacklist_ignores_case_of_title cfg (t : string) :
  is_blacklisted cfg (Str.lower t) = is_blacklisted cfg t.
Proof. unfold is_blacklisted. now rewrite lower_idempotent. Qed.

End TextFacts.

(** ** The fingerprint *)

Lemma hex_digit_is_hex (n : Z) :
  (0 <= n < 16)%Z -> is_hex (MD5.hex_digit n) = true.
Proof.
  intros H. replace n with (Z.of_nat (Z.to_nat n)) by lia.
  assert (Hk : Z.to_nat n < 16) by lia.
  generalize dependent (Z.to_nat n). intros k Hk.
  do 16 (destruct k as [|k]; [reflexivity|]). lia.
Qed.

Lemma hex_of_bytes (bs : list Z) :
  Forall (fun b => (0 <= b < 256)%Z) bs ->
  String.length (MD5.hex bs) = 2 * List.length bs
  /\ all_chars is_hex (MD5.hex bs) = true.
Proof.
  induction 1 as [|b bs Hb Hbs [IHl IHc]]; [split; reflexivity|].
  cbn [MD5.hex String.length List.length all_chars]. split; [lia|].
  rewrite !hex_digit_is_hex, IHc; [reflexivity | |].
  - apply Z.mod_pos_bound. lia.
  - split; [apply Z.div_pos; lia | apply Z.div_lt_upper_bound; lia].
Qed.

Lemma le_bytes_are_bytes (n : nat) (x : Z) :
  Forall (fun b => (0 <= b < 256)%Z) (MD5.le_bytes n x)
  /\ List.length (MD5.le_bytes n x) = n.
Proof.
  unfold MD5.le_bytes. split.
  - apply List.Forall_forall. intros b Hb.
    apply in_map_iff in Hb as (i & <- & _).
    change 255%Z with (Z.ones 8). rewrite Z.land_ones by lia.
    apply Z.mod_pos_bound. lia.
  - now rewrite length_map, length_seq.
Qed.

(** X4.  A fingerprint is a string of 32 lowercase hexadecimal digits,
    whatever the title and the URL are. *)
Theorem fingerprint_is_32_hex_digits (t u : string) :
  String.length (_generate_hash t u) = 32
  /\ all_chars is_hex (_generate_hash t u) = true.
Proof.
  unfold _generate_hash, MD5.hexdigest, MD5.digest.
  destruct (fold_left MD5.compress _ MD5.init) as [[[a b] c] d].
  destruct (le_bytes_are_bytes 4 a) as [Fa La], (le_bytes_are_bytes 4 b) as [Fb Lb],
    (le_bytes_are_bytes 4 c) as [Fc Lc], (le_bytes_are_bytes 4 d) as [Fd Ld].
  destruct (hex_of_bytes
              (MD5.le_bytes 4 a ++ MD5.le_bytes 4 b
               ++ MD5.le_bytes 4 c ++ MD5.le_bytes 4 d)) as [Hl Hc].
  { repeat (apply Forall_app; split); assumption. }
  split; [|exact Hc]. rewrite Hl, !length_app, La, Lb, Lc, Ld. reflexivity.
Qed.

(** ** [is_recent] *)

(** X5.  Freshness only improves for an earlier clock and for a later date
    of publication; with a window that is not negative, an article dated
    in the future is always recent. *)
Theorem is_recent_monotone cfg (now now' p p' : Z) :
  is_recent cfg now p = true ->
  (now' <= now)%Z -> (p <= p')%Z ->
  is_recent cfg now' p' = true.
Proof.
  unfold is_recent. intros H Hn Hp.
  apply Z.ltb_lt in H. apply Z.ltb_lt. lia.
Qed.

Lemma is_recent_monotone_witness :
  is_recent settings (timedelta_hours 23) 0 = true
  /\ (timedelta_hours 2 <= timedelta_hours 23)%Z
  /\ (0 <= timedelta_hours 5)%Z
  /\ is_recent settings (timedelta_hours 2) (timedelta_hours 5) = true.
Proof.
  split; [reflexivity|]. split; [vm_compute; discriminate|].
  split; [vm_compute; discriminate|].
  apply (is_recent_monotone settings (timedelta_hours 23) _ 0);
    [reflexivity | vm_compute; discriminate | vm_compute; discriminate].
Defined.

(** ** [fetch_page]: bounds, first success, the meaning of [None] *)

Section FetchPageMore.

Variable cfg : Settings.
Variable server : nat -> string -> Reply.

Lemma requests_made_snoc_get w url :
  requests_made (w ++ [EvGet url]) = requests_made w + 1.
Proof. now rewrite requests_made_app. Qed.

Lemma requests_made_snoc_sleep w d :
  requests_made (w ++ [EvSleep d]) = requests_made w.
Proof. rewrite requests_made_app. cbn. lia. Qed.

Lemma fetch_page_requests url : forall n retry w,
  n = Z.to_nat (MAX_RETRIES cfg - retry) ->
  exists tr,
    snd (fetch_page cfg server url retry w) = w ++ tr
    /\ 1 <= requests_made tr <= n + 1.
Proof.
  induction n as [|n IH]; intros retry w Hn;
    rewrite fetch_page_eq; cbv zeta;
    destruct (raise_for_status (server (requests_made w) url)) as [text|e].
  1, 3: destruct (sleep_cases (DOWNLOAD_DELAY cfg) (w ++ [EvGet url]))
          as [-> | ->]; cbn [snd];
        [ exists [EvGet url; EvSleep (DOWNLOAD_DELAY cfg)];
          split; [now rewrite <- app_assoc | cbn; lia]
        | exists [EvGet url]; split; [reflexivity | cbn; lia] ].
  - replace (retry <? MAX_RETRIES cfg)%Z with false
      by (symmetry; apply Z.ltb_nlt; lia).
    exists [EvGet url]. split; [reflexivity | cbn; lia].
  - destruct (retry <? MAX_RETRIES cfg)%Z eqn:Hlt.
    + destruct (sleep_cases (inject_Z (RETRY_DELAY cfg)) (w ++ [EvGet url]))
        as [-> | ->].
      * destruct (IH (retry + 1)%Z
                    ((w ++ [EvGet url])
                       ++ [EvSleep (inject_Z (RETRY_DELAY cfg))]))
          as (tr & Etr & Htr); [lia|].
        rewrite Etr.
        exists (EvGet url :: EvSleep (inject_Z (RETRY_DELAY cfg)) :: tr).
        split; [now rewrite <- !app_assoc | cbn; lia].
      * exists [EvGet url]. split; [reflexivity | cbn; lia].
    + exists [EvGet url]. split; [reflexivity | cbn; lia].
Qed.

(** X6.  Whatever the server answers, one call of [fetch_page] issues at
    least one request and at most one more than the retries it has left. *)
Theorem fetch_page_request_bounds url retry w :
  1 <= requests_made (since w (snd (fetch_page cfg server url retry w)))
    <= Z.to_nat (MAX_RETRIES cfg - retry) + 1.
Proof.
  destruct (fetch_page_requests url _ retry w eq_refl) as (tr & -> & H).
  now rewrite since_app.
Qed.

Lemma sleep_nonnegative_Q (d : Q) w :
  (0 <= d)%Q -> sleep d w = (Ok tt, w ++ [EvSleep d]).
Proof. intros H. unfold sleep. apply Qle_bool_iff in H. now rewrite H. Qed.

(** X7.  When the first [j] attempts fail and the next one succeeds, with
    [j] within the retries left, [fetch_page] returns the text of that
    attempt after [j + 1] requests: [j] retry delays, then the download
    delay. *)
Theorem fetch_page_first_success url text : forall (j : nat) retry w,
  (0 <= RETRY_DELAY cfg)%Z ->
  (0 <= DOWNLOAD_DELAY cfg)%Q ->
  (Z.of_nat j <= MAX_RETRIES cfg - retry)%Z ->
  (forall i, i < j ->
     exists e, raise_for_status (server (requests_made w + i) url) = Raise e) ->
  raise_for_status (server (requests_made w + j) url) = Ok text ->
  fetch_page cfg server url retry w
  = (Ok (Some text),
     w ++ failing_trace cfg url j ++ [EvSleep (DOWNLOAD_DELAY cfg)]).
Proof.
  induction j as [|j IH]; intros retry w Hd Hq Hj Hfail Hok;
    rewrite fetch_page_eq; cbv zeta.
  - rewrite Nat.add_0_r in Hok. rewrite Hok.
    rewrite sleep_nonnegative_Q by exact Hq.
    cbn [failing_trace]. now rewrite <- app_assoc.
  - destruct (Hfail 0) as [e He]; [lia|].
    rewrite Nat.add_0_r in He. rewrite He.
    replace (retry <? MAX_RETRIES cfg)%Z with true
      by (symmetry; apply Z.ltb_lt; lia).
    rewrite sleep_nonnegative by exact Hd.
    rewrite (IH (retry + 1)%Z); try assumption; try lia.
    + cbn [failing_trace]. now rewrite <- !app_assoc.
    + intros i Hi. rewrite requests_made_snoc_sleep, requests_made_snoc_get.
      replace (requests_made w + 1 + i) with (requests_made w + S i) by lia.
      apply Hfail. lia.
    + rewrite requests_made_snoc_sleep, requests_made_snoc_get.
      now replace (requests_made w + 1 + j) with (requests_made w + S j) by lia.
Qed.

Lemma fetch_page_none url : forall n retry w,
  n = Z.to_nat (MAX_RETRIES cfg - retry) ->
  fst (fetch_page cfg server url retry w) = Ok None ->
  snd (fetch_page cfg server url retry w) = w ++ failing_trace cfg url n
  /\ (forall i, i <= n ->
        exists e, raise_for_status (server (requests_made w + i) url) = Raise e).
Proof.
  induction n as [|n IH]; intros retry w Hn;
    rewrite fetch_page_eq; cbv zeta;
    destruct (raise_for_status (server (requests_made w) url)) as [text|e] eqn:E.
  1, 3: destruct (sleep_cases (DOWNLOAD_DELAY cfg) (w ++ [EvGet url]))
          as [-> | ->]; cbn [fst]; discriminate.
  - replace (retry <? MAX_RETRIES cfg)%Z with false
      by (symmetry; apply Z.ltb_nlt; lia).
    intros _. split; [reflexivity|]. intros i Hi.
    replace i with 0 by lia. rewrite Nat.add_0_r. now exists e.
  - replace (retry <? MAX_RETRIES cfg)%Z with true
      by (symmetry; apply Z.ltb_lt; lia).
    destruct (sleep_cases (inject_Z (RETRY_DELAY cfg)) (w ++ [EvGet url]))
      as [-> | ->]; [|cbn [fst]; discriminate].
    intros H. destruct (IH (retry + 1)%Z _ ltac:(lia) H) as [Etr Hall].
    rewrite Etr. split; [cbn [failing_trace]; now rewrite <- !app_assoc|].
    intros [|i] Hi; [rewrite Nat.add_0_r; now exists e|].
    specialize (Hall i ltac:(lia)).
    rewrite requests_made_snoc_sleep, requests_made_snoc_get in Hall.
    now replace (requests_made w + S i) with (requests_made w + 1 + i) by lia.
Qed.

(** X8.  [None] means that the retries are used up: when [fetch_page]
    returns [None], it has issued one request more than the retries it had
    left, each attempt failed, and the retry delay was waited between every
    two of them. *)
Theorem fetch_page_none_means_all_failed url retry w :
  fst (fetch_page cfg server url retry w) = Ok None ->
  since w (snd (fetch_page cfg server url retry w))
  = failing_trace cfg url (Z.to_nat (MAX_RETRIES cfg - retry))
  /\ (forall i, i <= Z.to_nat (MAX_RETRIES cfg - retry) ->
        exists e, raise_for_status (server (requests_made w + i) url) = Raise e).
Proof.
  intros H. destruct (fetch_page_none url _ retry w eq_refl H) as [-> Hall].
  now rewrite since_app.
Qed.

(** X9.  With a negative [DOWNLOAD_DELAY] a page that was fetched is lost:
    the polite sleep after the successful request raises [ValueError], which
    [fetch_page] does not catch. *)
Theorem negative_download_delay_loses_the_page url retry w text :
  (DOWNLOAD_DELAY cfg < 0)%Q ->
  raise_for_status (server (requests_made w) url) = Ok text ->
  fetch_page cfg server url retry w = (Raise ValueError, w ++ [EvGet url]).
Proof.
  intros Hd Hok. rewrite fetch_page_eq. cbv zeta. rewrite Hok.
  unfold sleep.
  destruct (Qle_bool 0 (DOWNLOAD_DELAY cfg)) eqn:E; [|reflexivity].
  apply Qle_bool_iff in E. lra.
Qed.

End FetchPageMore.

Lemma fetch_page_first_success_witness :
  let url := "https://example.com/a" in
  (0 <= RETRY_DELAY settings)%Z
  /\ (0 <= DOWNLOAD_DELAY settings)%Q
  /\ (Z.of_nat 3 <= MAX_RETRIES settings - 0)%Z
  /\ fetch_page settings
       (fun k u => if Nat.ltb k 3 then Response 500 "" else server_up k u)
       url 0 []
     = (Ok (Some "<html>https://example.com/a</html>"),
        [] ++ failing_trace settings url 3
           ++ [EvSleep (DOWNLOAD_DELAY settings)]).
Proof.
  intros url.
  split; [vm_compute; discriminate|]. split; [vm_compute; discriminate|].
  split; [vm_compute; discriminate|].
  apply (fetch_page_first_success settings
           (fun k u => if Nat.ltb k 3 then Response 500 "" else server_up k u)
           url "<html>https://example.com/a</html>" 3 0 []).
  - vm_compute; discriminate.
  - vm_compute; discriminate.
  - vm_compute; discriminate.
  - intros i Hi. exists RequestException.
    do 3 (destruct i as [|i]; [reflexivity|]). lia.
  - reflexivity.
Defined.

Lemma fetch_page_none_means_all_failed_witness :
  fst (fetch_page settings server_down "https://example.com/" 0 []) = Ok None
  /\ since [] (snd (fetch_page settings server_down "https://example.com/" 0 []))
     = failing_trace settings "https://example.com/" 3.
Proof.
  assert (H : fst (fetch_page settings server_down "https://example.com/" 0 [])
              = Ok None) by (vm_compute; reflexivity).
  split; [exact H|].
  exact (proj1 (fetch_page_none_means_all_failed settings server_down
                  "https://example.com/" 0 [] H)).
Defined.

Lemma negative_download_delay_loses_the_page_witness :
  let cfg := with_download_delay (-1) settings in
  (DOWNLOAD_DELAY cfg < 0)%Q
  /\ raise_for_status (server_up (requests_made []) "https://example.com/a")
     = Ok "<html>https://example.com/a</html>"
  /\ fetch_page cfg server_up "https://example.com/a" 0 []
     = (Raise ValueError, [] ++ [EvGet "https://example.com/a"]).
Proof.
  intros cfg.
  split; [reflexivity|]. split; [reflexivity|].
  apply (negative_download_delay_loses_the_page cfg server_up
           "https://example.com/a" 0 [] "<html>https://example.com/a</html>");
    reflexivity.
Defined.

(** ** Batches and their delivery *)

Section BatchFacts.

Context {A : Type}.

Lemma chunks_concat (size : nat) : forall (m : nat) (xs : list A),
  0 < size -> List.length xs <= m * size ->
  concat (map (fun k => firstn size (skipn (k * size) xs)) (seq 0 m)) = xs.
Proof.
  induction m as [|m IH]; intros xs Hs Hl.
  - destruct xs; [reflexivity | cbn in Hl; lia].
  - cbn [seq map concat]. rewrite <- seq_shift, map_map.
    cbn [Nat.mul skipn].
    rewrite (map_ext _ (fun k => firstn size (skipn (k * size) (skipn size xs)))).
    + rewrite IH; [apply firstn_skipn | exact Hs |].
      rewrite length_skipn. lia.
    + intros k. rewrite skipn_skipn. f_equal. f_equal. lia.
Qed.

Lemma slice_chunk (xs : list A) (k : nat) (s : Z) :
  (0 < s)%Z ->
  slice xs (Z.of_nat k * s) (Z.of_nat k * s + s)
  = firstn (Z.to_nat s) (skipn (k * Z.to_nat s) xs).
Proof.
  intros Hs. unfold slice. f_equal; [f_equal; lia|]. f_equal. nia.
Qed.

Lemma batch_count (n s : Z) :
  (0 <= n)%Z -> (0 < s)%Z ->
  let q := ((n + s - 1) / s)%Z in
  (0 <= q /\ n <= q * s /\ (q - 1) * s < n \/ (n = 0 /\ q = 0))%Z.
Proof.
  intros Hn Hs q.
  pose proof (Z.div_mod (n + s - 1) s ltac:(lia)) as E.
  pose proof (Z.mod_pos_bound (n + s - 1) s Hs) as B.
  fold q in E. destruct (Z.eq_dec n 0%Z) as [->|Hne].
  - right. split; [reflexivity|]. subst q.
    apply Z.div_small. lia.
  - left. nia.
Qed.

Variable cfg : Settings.

(** The batches, laid out with natural numbers. *)
Lemma make_batches_positive (articles : list A) :
  (0 < BATCH_SIZE cfg)%Z ->
  make_batches cfg articles
  = Ok (map (fun k => firstn (Z.to_nat (BATCH_SIZE cfg))
                        (skipn (k * Z.to_nat (BATCH_SIZE cfg)) articles))
            (seq 0 (Z.to_nat ((len articles + BATCH_SIZE cfg - 1)
                              / BATCH_SIZE cfg)))).
Proof.
  intros Hs. unfold make_batches, range0, bind.
  replace (BATCH_SIZE cfg =? 0)%Z with false by (symmetry; apply Z.eqb_neq; lia).
  replace (BATCH_SIZE cfg <? 0)%Z with false by (symmetry; apply Z.ltb_ge; lia).
  f_equal. rewrite map_map. apply map_ext. intros k. now apply slice_chunk.
Qed.

Lemma make_batches_shape (articles : list A) :
  (0 < BATCH_SIZE cfg)%Z ->
  exists batches,
    make_batches cfg articles = Ok batches
    /\ concat batches = articles
    /\ Forall (fun b => (1 <= len b <= BATCH_SIZE cfg)%Z) batches.
Proof.
  intros Hs. rewrite make_batches_positive by exact Hs.
  eexists. split; [reflexivity|].
  pose proof (batch_count (len articles) (BATCH_SIZE cfg)
                ltac:(unfold len; lia) Hs) as Hq. cbv zeta in Hq.
  set (q := ((len articles + BATCH_SIZE cfg - 1) / BATCH_SIZE cfg)%Z) in *.
  set (size := Z.to_nat (BATCH_SIZE cfg)).
  assert (Hsize : 0 < size) by (unfold size; lia).
  split.
  - apply chunks_concat; [exact Hsize|]. unfold len, size in *. nia.
  - apply List.Forall_forall. intros b Hb.
    apply in_map_iff in Hb as (k & <- & Hk). apply in_seq in Hk.
    unfold len in *. rewrite length_firstn, length_skipn.
    destruct Hq as [Hq|[Hq0 Hq1]]; [|rewrite Hq1 in Hk; cbn in Hk; lia].
    unfold size in *. nia.
Qed.

(** X10.  With a positive [BATCH_SIZE] the batches are a partition of the
    articles in their order: concatenated they give the list back, none is
    empty and none has more than [BATCH_SIZE] articles. *)
Theorem make_batches_partition (articles : list A) :
  (0 < BATCH_SIZE cfg)%Z ->
  exists batches,
    make_batches cfg articles = Ok batches
    /\ concat batches = articles
    /\ Forall (fun b => (1 <= len b <= BATCH_SIZE cfg)%Z) batches.
Proof. apply make_batches_shape. Qed.

Variable backend : nat -> list A -> Delivery.
Variable may_retry : bool.

Lemma send_batches_uncounted batches : forall k sent_count posted,
  (forall i b, backend i b = Accepted None) ->
  send_batches backend may_retry k batches sent_count posted
  = (Ok (sent_count + len (concat batches))%Z, posted ++ batches).
Proof.
  induction batches as [|b batches IH]; intros k sent_count posted Hall.
  - cbn. now rewrite Z.add_0_r, app_nil_r.
  - cbn [send_batches concat]. rewrite Hall, IH by exact Hall.
    cbn. unfold len. rewrite length_app, <- app_assoc. f_equal. f_equal. lia.
Qed.

(** X11.  When the backend takes every batch and reports no [created]
    count, the run posts every batch and returns the number of articles. *)
Theorem send_counts_every_article (articles : list A) :
  (0 < BATCH_SIZE cfg)%Z ->
  (forall i b, backend i b = Accepted None) ->
  fst (send_articles_to_backend cfg backend may_retry articles)
  = Ok (len articles)
  /\ concat (snd (send_articles_to_backend cfg backend may_retry articles))
     = articles.
Proof.
  intros Hs Hall. unfold send_articles_to_backend.
  destruct articles as [|a articles]; [split; reflexivity|].
  destruct (make_batches_shape (a :: articles) Hs) as (bs & -> & Hc & _).
  rewrite send_batches_uncounted by exact Hall. cbn [fst snd app].
  now rewrite Hc.
Qed.

(** X12.  With a [BATCH_SIZE] that is not positive nothing is posted: zero
    makes [range] raise [ValueError] before the [try], so no retry is asked
    for; a negative size gives no batch at all and the run reports 0
    articles sent. *)
Theorem batch_size_not_positive_posts_nothing (articles : list A) :
  (BATCH_SIZE cfg <= 0)%Z ->
  articles <> [] ->
  send_articles_to_backend cfg backend may_retry articles
  = (if (BATCH_SIZE cfg =? 0)%Z then Raise ValueError else Ok 0%Z, []).
Proof.
  intros Hs Hne. unfold send_articles_to_backend, make_batches, range0, bind.
  destruct articles as [|a articles]; [contradiction|].
  destruct (BATCH_SIZE cfg =? 0)%Z eqn:E; [reflexivity|].
  apply Z.eqb_neq in E.
  replace (BATCH_SIZE cfg <? 0)%Z with true by (symmetry; apply Z.ltb_lt; lia).
  reflexivity.
Qed.

Lemma send_batches_prefix batches : forall k sent_count posted,
  exists n,
    snd (send_batches backend may_retry k batches sent_count posted)
    = posted ++ firstn n batches
    /\ (forall total,
          fst (send_batches backend may_retry k batches sent_count posted)
          = Ok total -> n = List.length batches).
Proof.
  induction batches as [|b batches IH]; intros k sent_count posted.
  - exists 0. cbn. rewrite app_nil_r. now split.
  - cbn [send_batches]. destruct (backend k b) as [created|exc].
    + destruct (IH (S k) (sent_count + default (len b) created)%Z
                  (posted ++ [b])) as (n & E & Hn).
      exists (S n). rewrite E. cbn [firstn List.length].
      split; [now rewrite <- app_assoc|]. intros total Ht. f_equal. eauto.
    + exists 1. cbn. split; [reflexivity | discriminate].
Qed.

(** X13.  Whatever the backend answers, the batches posted in a run are an
    initial run of the batches, in their order; and a run that returns a
    count has posted them all. *)
Theorem posted_batches_are_a_prefix (articles : list A) batches :
  make_batches cfg articles = Ok batches ->
  exists n,
    snd (send_articles_to_backend cfg backend may_retry articles)
    = firstn n batches
    /\ (articles <> [] ->
        forall total,
          fst (send_articles_to_backend cfg backend may_retry articles)
          = Ok total ->
          snd (send_articles_to_backend cfg backend may_retry articles)
          = batches).
Proof.
  intros Hb. unfold send_articles_to_backend.
  destruct articles as [|a articles].
  - exists 0. split; [reflexivity | intros H; now destruct H].
  - rewrite Hb. destruct (send_batches_prefix batches 0 0%Z []) as (n & E & Hn).
    exists n. split; [exact E|]. intros _ total Ht.
    rewrite E, (Hn total Ht). now rewrite firstn_all.
Qed.

End BatchFacts.

Lemma make_batches_partition_witness :
  (0 < BATCH_SIZE settings)%Z
  /\ make_batches settings job = Ok [batch1; batch2; batch3]
  /\ concat [batch1; batch2; batch3] = job.
Proof.
  split; [reflexivity|].
  destruct (make_batches_partition settings job eq_refl) as (bs & E & Hc & _).
  assert (Ebs : bs = [batch1; batch2; batch3])
    by (vm_compute in E; now injection E as <-).
  subst bs. split; [exact E | exact Hc].
Defined.

Lemma send_counts_every_article_witness :
  (0 < BATCH_SIZE settings)%Z
  /\ fst (send_articles_to_backend settings
            (fun (_ : nat) (_ : list nat) => Accepted None) true job)
     = Ok 25%Z.
Proof.
  split; [reflexivity|].
  exact (proj1 (send_counts_every_article settings
                  (fun _ _ => Accepted None) true job eq_refl
                  (fun _ _ => eq_refl))).
Defined.

Lemma batch_size_not_positive_posts_nothing_witness :
  (BATCH_SIZE (with_batch_size (-5) settings) <= 0)%Z
  /\ job <> []
  /\ send_articles_to_backend (with_batch_size (-5) settings)
       (fun (_ : nat) (_ : list nat) => Accepted None) true job
     = (Ok 0%Z, [])
  /\ send_articles_to_backend (with_batch_size 0 settings)
       (fun (_ : nat) (_ : list nat) => Accepted None) true job
     = (Raise ValueError, []).
Proof.
  split; [vm_compute; discriminate|]. split; [discriminate|]. split.
  - apply (batch_size_not_positive_posts_nothing (with_batch_size (-5) settings)
             (fun _ _ => Accepted None) true job);
      [vm_compute; discriminate | discriminate].
  - apply (batch_size_not_positive_posts_nothing (with_batch_size 0 settings)
             (fun _ _ => Accepted None) true job);
      [vm_compute; discriminate | discriminate].
Defined.

Lemma posted_batches_are_a_prefix_witness :
  make_batches settings job = Ok [batch1; batch2; batch3]
  /\ exists n,
       snd (send_articles_to_backend settings backend_refusing_batch2 true job)
       = firstn n [batch1; batch2; batch3].
Proof.
  split; [reflexivity|].
  destruct (posted_batches_are_a_prefix settings backend_refusing_batch2 true
              job [batch1; batch2; batch3] eq_refl) as (n & E & _).
  now exists n.
Defined.

(** ** [deduplicate_articles]: what is kept *)

Section DedupMore.

Variable cfg : Settings.

Lemma dedup_fold_sublist xs : forall st,
  exists kept,
    unique (fold_left (dedup_step cfg) xs st) = unique st ++ kept
    /\ sublist kept xs.
Proof.
  induction xs as [|a xs IH]; intros st.
  - exists []. split; [now rewrite app_nil_r | constructor].
  - cbn [fold_left]. destruct (IH (dedup_step cfg st a)) as (kept & E & Hs).
    destruct (dedup_step_cases cfg st a) as (_ & _ & [Eu | (Eu & _)]);
      rewrite E, Eu.
    + exists kept. split; [reflexivity | now constructor].
    + exists (a :: kept). split; [now rewrite <- app_assoc | now constructor].
Qed.

(** X14.  Deduplication only removes: what it returns is the input with some
    articles left out, the order kept; and the first article of the input
    is always kept, at the head. *)
Theorem deduplicate_only_removes xs :
  sublist (deduplicate_articles cfg xs) xs
  /\ (forall x rest,
        xs = x :: rest ->
        exists kept, deduplicate_articles cfg xs = x :: kept).
Proof.
  unfold deduplicate_articles. split.
  - destruct (dedup_fold_sublist xs dedup_start) as (kept & -> & Hs).
    exact Hs.
  - intros x rest ->. cbn [fold_left].
    destruct (dedup_fold_sublist rest (dedup_step cfg dedup_start x))
      as (kept & -> & _).
    destruct (dedup_step_keeps cfg dedup_start x) as (-> & _).
    + split; intros _ a _; apply not_elem_of_empty.
    + now exists kept.
Qed.

(** X15.  In what deduplication returns no two articles have the same URL
    when URLs are checked, and no two have the same fingerprint when
    fingerprints are checked. *)
Theorem deduplicate_gives_distinct_keys xs :
  (CHECK_DUPLICATES_BY_URL cfg = true ->
   List.NoDup (map url (deduplicate_articles cfg xs)))
  /\ (CHECK_DUPLICATES_BY_TITLE cfg = true ->
      List.NoDup (map content_hash (deduplicate_articles cfg xs))).
Proof. exact (deduplicated_distinct cfg xs). Qed.

(** X16.  The fingerprint is the hash of the title glued to the URL, so two
    articles whose glued title and URL read the same are one article to the
    fingerprint check, even when their titles and their URLs differ. *)
Theorem glued_title_and_url_collide a b :
  constructed a -> constructed b ->
  (title a ++ url a)%string = (title b ++ url b)%string ->
  CHECK_DUPLICATES_BY_TITLE cfg = true ->
  content_hash a = content_hash b
  /\ deduplicate_articles cfg [a; b] = [a].
Proof.
  intros Ca Cb E T.
  assert (Eh : content_hash b = content_hash a).
  { unfold constructed, _generate_hash in *. now rewrite Ca, Cb, E. }
  split; [now symmetry|].
  unfold deduplicate_articles. cbn [fold_left].
  destruct (dedup_step_keeps cfg dedup_start a) as (Eq & Hu & Hh).
  { split; intros _ c _; apply not_elem_of_empty. }
  cbn [dedup_start unique seen_urls seen_hashes app] in Eq, Hu, Hh.
  generalize dependent (dedup_step cfg dedup_start a). intros st1 Eq Hu Hh.
  unfold dedup_step. rewrite Hh, Eq, Eh, T.
  destruct (CHECK_DUPLICATES_BY_URL cfg); cbn [andb];
    repeat case_bool_decide; cbn [unique]; try reflexivity; try exact Eq.
  all: exfalso;
    match goal with
    | Hn : _ ∉ _ |- _ =>
        apply Hn; apply elem_of_union; left; now apply elem_of_singleton
    end.
Qed.

End DedupMore.

Lemma glued_title_and_url_collide_witness :
  let a := Article_init 0 "ab" "c" "" "" None None None None None "en" None in
  let b := Article_init 0 "a" "bc" "" "" None None None None None "en" None in
  title a <> title b /\ url a <> url b
  /\ CHECK_DUPLICATES_BY_TITLE settings = true
  /\ content_hash a = content_hash b
  /\ deduplicate_articles settings [a; b] = [a].
Proof.
  intros a b. split; [discriminate|]. split; [discriminate|].
  split; [reflexivity|].
  assert (E : (title a ++ url a)%string = (title b ++ url b)%string)
    by (vm_compute; reflexivity).
  exact (glued_title_and_url_collide settings a b
           (Article_init_constructed _ _ _ _ _ _ _ _ _ _ _ _)
           (Article_init_constructed _ _ _ _ _ _ _ _ _ _ _ _)
           E eq_refl).
Defined.

(** ** What the connectors build *)

Section ConnectorFacts.

Local Open Scope string_scope.
#[local] Arguments String.append !_ _ / : simpl nomatch.

Lemma lstrip_head (s : string) c r :
  Str.lstrip s = String c r -> Str.isspace c = false.
Proof.
  induction s as [|d s IH]; cbn [Str.lstrip]; [discriminate|].
  destruct (Str.isspace d) eqn:E; [exact IH|]. now intros [= <- _].
Qed.

Lemma rstrip_head (s : string) c r :
  Str.rstrip s = String c r -> exists s', s = String c s'.
Proof.
  destruct s as [|d s]; cbn [Str.rstrip]; [discriminate|].
  destruct (Str.is_empty (Str.rstrip s) && Str.isspace d); [discriminate|].
  intros [= <- _]. now exists s.
Qed.

Lemma strip_head (s : string) c r :
  Str.strip s = String c r -> Str.isspace c = false.
Proof.
  unfold Str.strip. intros H.
  destruct (rstrip_head _ _ _ H) as [s' E]. now apply lstrip_head in E.
Qed.

Lemma split_from_nonempty (s w : string) :
  w <> "" -> Str.split_from w s <> [].
Proof.
  revert w. induction s as [|c s IH]; intros w Hw; cbn [Str.split_from].
  - apply is_empty_false in Hw. now rewrite Hw.
  - destruct (Str.isspace c).
    + apply is_empty_false in Hw. now rewrite Hw.
    + apply IH. destruct w; [contradiction | discriminate].
Qed.

(** Cleaning a stripped, non-empty string leaves something. *)
Lemma clean_text_of_stripped (s : string) :
  Str.strip s <> "" -> clean_text (Str.strip s) <> "".
Proof.
  intros Hne. rewrite clean_text_join.
  destruct (Str.strip s) as [|c r] eqn:E; [contradiction|].
  pose proof (strip_head _ _ _ E) as Hc.
  pose proof (split_words (String c r)) as Hw.
  unfold Str.split in *. cbn [Str.split_from] in *. rewrite Hc in *.
  pose proof (split_from_nonempty r ("" ++ String c "") ltac:(discriminate)) as Hl.
  destruct (Str.split_from ("" ++ String c "") r) as [|w ws]; [contradiction|].
  inversion Hw as [|? ? [Hw1 _] _]; subst.
  destruct w as [|d w]; [contradiction|]. destruct ws; discriminate.
Qed.

Variable cfg : Settings.
Variable detect : string -> option string.

(** X17.  Every article that the feed connector builds has a non-empty
    title and URL, the stripped ones of the entry; it is recent, dated by
    the entry or else by the clock; its source and category are the
    scraper's; its content and summary are cleaned; and its fingerprint is
    the hash of its title and URL. *)
Theorem feed_article_postcondition source_name cat now entry a :
  _parse_entry cfg detect source_name cat now entry = Ok (Some a) ->
  title a <> "" /\ url a <> ""
  /\ (exists t l, e_title entry = Text t /\ e_link entry = Text l
                  /\ title a = Str.strip t /\ url a = Str.strip l)
  /\ published_at a = default now (parsed_date (e_published_parsed entry))
  /\ is_recent cfg now (published_at a) = true
  /\ scraped_at a = now
  /\ source a = Some source_name /\ category a = cat
  /\ normalized (content a) /\ normalized (summary a)
  /\ constructed a.
Proof.
  unfold _parse_entry, bind, as_str. intros H.
  destruct (e_title entry) as [| |t] eqn:Et; cbn [get] in H;
    try discriminate H.
  destruct (Str.is_empty (Str.strip t)) eqn:Ht; [discriminate H|].
  destruct (e_link entry) as [| |l] eqn:El; cbn [get] in H;
    try discriminate H.
  destruct (Str.is_empty (Str.strip l)) eqn:Hl; [discriminate H|].
  destruct (is_recent cfg now
              (default now (parsed_date (e_published_parsed entry)))) eqn:Hr.
  2: { repeat split_match H. }
  repeat split_match H.
  all: injection H as <-; cbn [title url published_at scraped_at source
                                 content summary content_hash category].
  all: repeat split; try (now apply is_empty_false); try exact Hr;
       try (unfold normalized; apply clean_text_idempotent).
  all: exists t, l; repeat split; reflexivity.
Qed.

End ConnectorFacts.

Lemma feed_article_postcondition_witness :
  _parse_entry settings detect_en "bbc" None 0 (rates_entry " Rates rise " NoDate)
  = Ok (Some (rates_article "Rates rise"))
  /\ title (rates_article "Rates rise") <> ""
  /\ is_recent settings 0 (published_at (rates_article "Rates rise")) = true.
Proof.
  assert (H : _parse_entry settings detect_en "bbc" None 0
                (rates_entry " Rates rise " NoDate)
              = Ok (Some (rates_article "Rates rise")))
    by (vm_compute; reflexivity).
  destruct (feed_article_postcondition settings detect_en "bbc" None 0 _ _ H)
    as (Ht & _ & _ & _ & Hr & _).
  split; [exact H|]. split; [exact Ht | exact Hr].
Defined.

Section ConnectorFacts2.

Variable cfg : Settings.
Variable detect : string -> option string.

(** X18.  When the entry of a feed carries no content of its own -- no
    [content] at all, an empty list, or a first part that is [None] or
    empty -- the content of the article is its summary. *)
Theorem feed_content_falls_back_to_summary source_name cat now entry a :
  _parse_entry cfg detect source_name cat now entry = Ok (Some a) ->
  (forall part rest, e_content entry = Some (part :: rest) ->
                     part = Null \/ part = Text "") ->
  content a = summary a.
Proof.
  unfold _parse_entry, bind, as_str. intros H Hc.
  destruct (e_content entry) as [[|part rest]|] eqn:Ec.
  2: destruct (Hc part rest eq_refl) as [-> | ->].
  all: cbn [truthy Str.is_empty negb] in H.
  all: repeat split_match H;
       injection H as <-; cbn [content summary];
       apply clean_text_idempotent.
Qed.

Lemma scrape_entries_stale source_name cat old :
  Forall (fun ne => exists t, e_published_parsed (snd ne) = Date t
                              /\ stale cfg (fst ne) t) old ->
  scrape_entries cfg detect source_name cat old = [].
Proof.
  induction 1 as [|[now entry] old (t & Hp & Hs) _ IH]; [reflexivity|].
  cbn [scrape_entries]. cbn [fst snd] in Hp, Hs.
  pose proof (parse_entry_drops_stale cfg detect source_name cat
                now entry t) as Hn.
  destruct (_parse_entry cfg detect source_name cat now entry) as [[a|]|e];
    [now destruct (Hn a Hp Hs) | exact IH | exact IH].
Qed.

(** X19.  The feed connector returns the same articles with or without the
    entries whose date has left the freshness window: a run of stale
    entries anywhere in the feed leaves no trace. *)
Theorem feed_connector_ignores_stale_entries source_name cat before old after :
  Forall (fun ne => exists t, e_published_parsed (snd ne) = Date t
                              /\ stale cfg (fst ne) t) old ->
  rss_scrape cfg detect source_name cat (FeedParsed (before ++ old ++ after))
  = rss_scrape cfg detect source_name cat (FeedParsed (before ++ after)).
Proof.
  intros H. cbn [rss_scrape].
  rewrite !scrape_entries_app.
  now rewrite (scrape_entries_stale source_name cat old H).
Qed.

(** X20.  The loop over the items of the polling API runs inside one [try]:
    an item whose parse raises ends the fetch, and the items after it are
    never looked at -- the articles gathered before it are all that is
    returned. *)
Theorem api_fetch_stops_at_raising_item cat before now bad after e :
  _parse_api_article detect cat now bad = Raise e ->
  api_scrape detect cat (ApiAnswer true (before ++ (now, bad) :: after))
  = api_scrape detect cat (ApiAnswer true before).
Proof.
  intros Hbad. unfold api_scrape, _scrape_top_headlines. cbn [app].
  induction before as [|[now' item] before IH]; cbn [app parse_items].
  - now rewrite Hbad.
  - destruct (_parse_api_article detect cat now' item) as [[a|]|e'];
      [now rewrite IH | exact IH | reflexivity].
Qed.

(** X21.  An item whose description is [null] never gives an article: with
    a blank title or URL it is passed over, otherwise its parse raises. *)
Theorem api_item_without_description_gives_no_article cat now item a :
  i_description item = Null ->
  _parse_api_article detect cat now item <> Ok (Some a).
Proof.
  intros Hd H. unfold _parse_api_article, bind, as_str in H.
  rewrite Hd in H. cbn [get] in H.
  repeat split_match H.
Qed.

(** X22.  Every article that the polling-API connector builds has a
    non-empty, cleaned title and a non-empty URL, cleaned content and
    summary, no tags, the date of the item or else the clock, and the hash
    of its title and URL as fingerprint; when the content of the item is
    missing or shorter than 100 characters, its content is its summary. *)
Theorem api_article_postcondition cat now item a :
  _parse_api_article detect cat now item = Ok (Some a) ->
  title a <> "" /\ normalized (title a) /\ url a <> ""
  /\ normalized (content a) /\ normalized (summary a)
  /\ tags a = []
  /\ published_at a = default now (parsed_date (i_publishedAt item))
  /\ scraped_at a = now
  /\ constructed a
  /\ ((forall s, i_content item = Text s -> String.length s < 100) ->
      content a = summary a).
Proof.
  unfold _parse_api_article, bind, as_str. intros H.
  assert (Hshort :
    (forall s, i_content item = Text s -> String.length s < 100) ->
    negb (truthy (get (i_content item) (Some "")))
    || (Z.of_nat (String.length (default "" (get (i_content item) (Some ""))))
        <? 100)%Z = true).
  { intros Hs. destruct (i_content item) as [| |s]; try reflexivity.
    specialize (Hs s eq_refl). cbn [get]. apply orb_true_iff. right.
    apply Z.ltb_lt. cbn. lia. }
  destruct (get (i_title item) (Some "")) as [t|]; [|discriminate H].
  destruct (get (i_url item) (Some "")) as [u|]; [|discriminate H].
  destruct (Str.is_empty (Str.strip t)) eqn:Ht; [discriminate H|].
  destruct (Str.is_empty (Str.strip u)) eqn:Hu; [discriminate H|].
  cbn [orb] in H.
  destruct (negb (truthy (get (i_content item) (Some "")))
            || (Z.of_nat (String.length
                            (default "" (get (i_content item) (Some ""))))
                <? 100)%Z) eqn:Econd.
  all: repeat split_match H;
       injection H as <-;
       cbn [title url content summary tags published_at scraped_at content_hash].
  all: repeat split;
       try (apply clean_text_of_stripped; now apply is_empty_false);
       try (now apply is_empty_false);
       try (unfold normalized; apply clean_text_idempotent);
       try reflexivity.
  all: intros Hs;
       first
         [ apply Hshort in Hs; discriminate Hs
         | match goal with
           | H1 : match ?d with Some _ => _ | None => Raise TypeError end
                  = Ok _,
             H2 : match ?d with Some _ => _ | None => Raise AttributeError end
                  = Ok _ |- _ =>
               destruct d; [|discriminate H1];
               injection H1 as <-; injection H2 as <-; reflexivity
           end ].
Qed.

End ConnectorFacts2.

Lemma feed_content_falls_back_to_summary_witness :
  _parse_entry settings detect_en "bbc" None 0 (rates_entry "Rates rise" NoDate)
  = Ok (Some (rates_article "Rates rise"))
  /\ e_content (rates_entry "Rates rise" NoDate) = None
  /\ content (rates_article "Rates rise") = summary (rates_article "Rates rise").
Proof.
  assert (H : _parse_entry settings detect_en "bbc" None 0
                (rates_entry "Rates rise" NoDate)
              = Ok (Some (rates_article "Rates rise")))
    by (vm_compute; reflexivity).
  split; [exact H|]. split; [reflexivity|].
  apply (feed_content_falls_back_to_summary settings detect_en "bbc" None 0
           _ _ H).
  intros part rest E. discriminate E.
Defined.

Lemma feed_connector_ignores_stale_entries_witness :
  let fresh := (forty_days, rates_entry "Rates rise" NoDate) in
  let old := [(forty_days, rates_entry "Old rates" (Date 0))] in
  Forall (fun ne => exists t, e_published_parsed (snd ne) = Date t
                              /\ stale settings (fst ne) t) old
  /\ rss_scrape settings detect_en "bbc" None
       (FeedParsed ([fresh] ++ old ++ [fresh]))
     = rss_scrape settings detect_en "bbc" None
         (FeedParsed ([fresh] ++ [fresh])).
Proof.
  intros fresh old.
  assert (H : Forall (fun ne => exists t, e_published_parsed (snd ne) = Date t
                                          /\ stale settings (fst ne) t) old).
  { constructor; [|constructor]. exists 0%Z. split; [reflexivity|].
    vm_compute. discriminate. }
  split; [exact H|].
  apply (feed_connector_ignores_stale_entries settings detect_en "bbc" None
           [fresh] old [fresh] H).
Defined.

Lemma api_fetch_stops_at_raising_item_witness :
  _parse_api_article detect_en None forty_days undescribed_item
  = Raise TypeError
  /\ api_scrape detect_en None
       (ApiAnswer true ([(forty_days, old_item)]
                        ++ (forty_days, undescribed_item)
                        :: [(forty_days, old_item)]))
     = [old_article].
Proof.
  assert (H : _parse_api_article detect_en None forty_days undescribed_item
              = Raise TypeError) by (vm_compute; reflexivity).
  split; [exact H|].
  rewrite (api_fetch_stops_at_raising_item detect_en None
             [(forty_days, old_item)] forty_days undescribed_item
             [(forty_days, old_item)] TypeError H).
  vm_compute. reflexivity.
Defined.

Lemma api_item_without_description_gives_no_article_witness :
  i_description undescribed_item = Null
  /\ _parse_api_article detect_en None 0 undescribed_item
     <> Ok (Some old_article).
Proof.
  split; [reflexivity|].
  apply (api_item_without_description_gives_no_article detect_en None 0
           undescribed_item old_article eq_refl).
Defined.

Lemma api_article_postcondition_witness :
  _parse_api_article detect_en None forty_days old_item = Ok (Some old_article)
  /\ title old_article <> ""
  /\ content old_article = summary old_article.
Proof.
  assert (H : _parse_api_article detect_en None forty_days old_item
              = Ok (Some old_article)) by (vm_compute; reflexivity).
  destruct (api_article_postcondition detect_en None forty_days _ _ H)
    as (Ht & _ & _ & _ & _ & _ & _ & _ & _ & Hc).
  split; [exact H|]. split; [exact Ht|].
  apply Hc. intros s E. discriminate E.
Defined.

(** ** [is_valid] and [run] as written *)

(** X23.  [is_valid] answers [False] for an article without title, without
    URL or with fewer than [MIN_ARTICLE_LENGTH] words, and raises
    [AttributeError] for every other article, the helpers not being
    attributes of [settings]; so [run], which turns every exception into
    the empty list, returns no article whatever the scrape gave. *)
Theorem run_never_returns_an_article cfg :
  (forall a,
     is_valid cfg a
     = if Str.is_empty (title a) || Str.is_empty (url a)
          || (len (Str.split (content a)) <? MIN_ARTICLE_LENGTH cfg)%Z
       then Ok false else Raise AttributeError)
  /\ (forall scraped, run cfg scraped = []).
Proof.
  split; [|apply run_returns_nothing].
  intros a. unfold is_valid, is_valid_via, settings_attribute, bind.
  destruct (Str.is_empty (title a) || Str.is_empty (url a)); [reflexivity|].
  now destruct (len (Str.split (content a)) <? MIN_ARTICLE_LENGTH cfg)%Z.
Qed.

(** ** The source catalogue *)

#[local] Instance str_le_total : Total str_le.
Proof. intros a b. apply String.leb_total. Qed.

(** X24.  [get_all_sources] lists, in ascending order and each once, the
    names of the RSS feeds, of the News API sources and of the pages to
    scrape, and nothing else. *)
Theorem get_all_sources_sorted_and_complete (srcs : Sources) :
  Sorted str_le (get_all_sources srcs)
  /\ List.NoDup (get_all_sources srcs)
  /\ (forall name,
        In name (get_all_sources srcs)
        <-> In name (dict_keys (RSS_FEEDS srcs))
            \/ In name (NEWS_API_SOURCES srcs)
            \/ In name (dict_keys (WEB_SCRAPE_URLS srcs))).
Proof.
  unfold get_all_sources, sorted. cbv zeta.
  set (s := (∅ ∪ list_to_set (dict_keys (RSS_FEEDS srcs))
             ∪ list_to_set (NEWS_API_SOURCES srcs)
             ∪ list_to_set (dict_keys (WEB_SCRAPE_URLS srcs)) : gset string)).
  pose proof (merge_sort_Permutation str_le (elements s)) as P.
  split; [apply Sorted_merge_sort; apply _|]. split.
  - apply NoDup_ListNoDup. rewrite P. apply NoDup_elements.
  - intros name. rewrite <- !list_elem_of_In, P, elem_of_elements.
    unfold s. rewrite !elem_of_union, !elem_of_list_to_set.
    split; [intros [[[H|H]|H]|H] | intros [H|[H|H]]]; auto.
    now apply not_elem_of_empty in H.
Qed.

(** ** The scraping tasks *)

Section PipelineFacts.

Variable cfg : Settings.
Variable srcs : Sources.
Variable detect : string -> option string.
Variable fetch_feed : string -> Feed.
Variable news_api : ApiClient.
Variable backend : nat -> list (list (string * value)) -> Delivery.
Variable may_retry : bool.

Lemma scrape_all_nothing :
  scrape_all cfg srcs detect settings_attribute fetch_feed = [].
Proof.
  unfold scrape_all. induction (_setup_scrapers srcs) as [|[[n u] c] l IH];
    [reflexivity|].
  cbn [flat_map rss_run]. rewrite IH.
  change (run_via settings_attribute cfg ?x) with (run cfg x).
  now rewrite run_returns_nothing.
Qed.

Lemma api_run_nothing scraper :
  api_run cfg detect settings_attribute scraper = [].
Proof.
  unfold api_run. change (run_via settings_attribute cfg ?x) with (run cfg x).
  apply run_returns_nothing.
Qed.

(** X25.  As written, [scrape_all_sources] never has an article to deliver:
    whatever the feeds, the API and the backend do, it returns statistics
    with every count at zero and at most one error -- the API client that
    could not be built -- and posts nothing to the backend. *)
Theorem scrape_all_sources_delivers_nothing t0 t1 :
  exists errs,
    (errs = 0 \/ errs = 1)%Z
    /\ scrape_all_sources cfg srcs detect settings_attribute fetch_feed
         news_api backend may_retry t0 t1
       = (Ok {| total_articles := 0; rss_articles := 0; api_articles := 0;
                sent_to_backend := 0; errors := errs;
                start_time := t0; end_time := t1 |}, []).
Proof.
  unfold scrape_all_sources, scrape_rss_feeds, scrape_news_api,
    NewsAPIScraper_init, bind.
  rewrite scrape_all_nothing. cbn [map len List.length Z.of_nat].
  destruct (truthy (NEWS_API_KEY cfg)) eqn:K; cbn [negb];
    [|exists 0%Z; split; [now left | reflexivity]].
  replace (truthy (py_or None (NEWS_API_KEY cfg))) with true
    by (unfold py_or; cbn [truthy]; now rewrite K).
  cbn [negb]. destruct news_api as [e|respond].
  - exists 1%Z. split; [now right | reflexivity].
  - rewrite api_run_nothing. exists 0%Z. split; [now left | reflexivity].
Qed.

Variable lookup : resolver.

(** X26.  However [is_valid] resolves its helpers, [scrape_all_sources]
    posts nothing as long as a duplicate check is on: the articles reach
    [deduplicate_articles] as dicts, which have no attribute [url] or
    [content_hash], so the task either had nothing to deliver or raises
    [AttributeError] before the delivery. *)
Theorem duplicate_check_on_dicts_blocks_delivery t0 t1 :
  CHECK_DUPLICATES_BY_URL cfg || CHECK_DUPLICATES_BY_TITLE cfg = true ->
  let r := scrape_all_sources cfg srcs detect lookup fetch_feed news_api
             backend may_retry t0 t1 in
  snd r = []
  /\ (fst r = Raise AttributeError
      \/ exists stats, fst r = Ok stats
                       /\ total_articles stats = 0%Z
                       /\ sent_to_backend stats = 0%Z).
Proof.
  intros Hon r. subst r. unfold scrape_all_sources, deduplicate_dicts.
  rewrite Hon.
  destruct (scrape_rss_feeds cfg srcs detect lookup fetch_feed) as [rss|e];
    destruct (truthy (NEWS_API_KEY cfg));
    try destruct (scrape_news_api cfg srcs detect lookup news_api) as [api|e'].
  all: cbv zeta beta iota.
  all: try match goal with
           | |- context [match ?l with [] => _ | _ :: _ => _ end] =>
               destruct l eqn:El
           end.
  all: cbn [fst snd]; split; try reflexivity; auto.
  all: right; eexists; split; [reflexivity|];
       cbn [total_articles sent_to_backend]; now rewrite ?El.
Qed.

(** X27.  The task [scrape_source] answers the empty list for a name that
    is neither an RSS feed nor a News API source, and raises [ValueError]
    for a name known to the News API only when no API key is set: unlike
    [scrape_news_api], it builds the API scraper without looking for the
    key first. *)
Theorem scrape_source_task_without_feed source_name :
  dict_get source_name (RSS_FEEDS srcs) = None ->
  (~ In source_name (NEWS_API_SOURCES srcs) ->
   scrape_source_task cfg srcs detect lookup fetch_feed news_api source_name
   = Ok [])
  /\ (In source_name (NEWS_API_SOURCES srcs) ->
      truthy (NEWS_API_KEY cfg) = false ->
      scrape_source_task cfg srcs detect lookup fetch_feed news_api source_name
      = Raise ValueError).
Proof.
  intros Hf. unfold scrape_source_task. rewrite Hf. cbn [truthy].
  destruct (existsb (String.eqb source_name) (NEWS_API_SOURCES srcs)) eqn:E.
  - apply existsb_exists in E as (n & Hn & E).
    apply String.eqb_eq in E as <-. split; [intros H; now destruct H|].
    intros _ K. unfold NewsAPIScraper_init, bind, py_or. cbn [truthy].
    now rewrite K.
  - split; [reflexivity|]. intros Hin. exfalso.
    apply not_true_iff_false in E. apply E. apply existsb_exists.
    exists source_name. split; [exact Hin | apply String.eqb_refl].
Qed.

End PipelineFacts.

Lemma duplicate_check_on_dicts_blocks_delivery_witness :
  let feed := fun _ : string => FeedParsed [(0%Z, long_entry)] in
  let r := scrape_all_sources settings sources detect_en
             (config_module settings) feed (ClientRaised ValueError)
             (fun _ _ => Accepted None) true 0 1 in
  CHECK_DUPLICATES_BY_URL settings || CHECK_DUPLICATES_BY_TITLE settings = true
  /\ List.length (scrape_all settings sources detect_en
                    (config_module settings) feed) = 6
  /\ snd r = []
  /\ fst r = Raise AttributeError.
Proof.
  intros feed r. split; [reflexivity|].
  split; [vm_compute; reflexivity|].
  split; [|vm_compute; reflexivity].
  exact (proj1 (duplicate_check_on_dicts_blocks_delivery settings sources
                  detect_en feed (ClientRaised ValueError)
                  (fun _ _ => Accepted None) true (config_module settings)
                  0%Z 1%Z eq_refl)).
Defined.

Lemma scrape_source_task_without_feed_witness :
  let task := scrape_source_task settings sources detect_en settings_attribute
                (fun _ => FeedRaised) (Client (fun _ => ApiRaised)) in
  dict_get "the-verge" (RSS_FEEDS sources) = None
  /\ In "the-verge" (NEWS_API_SOURCES sources)
  /\ truthy (NEWS_API_KEY settings) = false
  /\ task "the-verge" = Raise ValueError
  /\ task "bbc_tech" = Ok [].
Proof.
  intros task.
  assert (Hin : In "the-verge" (NEWS_API_SOURCES sources))
    by (vm_compute; tauto).
  split; [reflexivity|]. split; [exact Hin|]. split; [reflexivity|]. split.
  - exact (proj2 (scrape_source_task_without_feed settings sources detect_en
                    (fun _ => FeedRaised) (Client (fun _ => ApiRaised))
                    settings_attribute "the-verge" eq_refl) Hin eq_refl).
  - apply (proj1 (scrape_source_task_without_feed settings sources detect_en
                    (fun _ => FeedRaised) (Client (fun _ => ApiRaised))
                    settings_attribute "bbc_tech" eq_refl)).
    vm_compute. intuition discriminate.
Defined.

(** ** [deduplicate_articles]: why an article is dropped *)

Section DedupReasons.

Variable cfg : Settings.

Lemma linked_mono pool pool' kept kept' x :
  (forall z, In z pool -> In z pool') ->
  (forall y, In y kept -> In y kept') ->
  linked cfg pool kept x -> linked cfg pool' kept' x.
Proof.
  intros Hp Hk (z & y & Hz & Hy & H1 & H2). exists z, y. auto.
Qed.

(** Closes the goals left once the two articles of a link are named. *)
Ltac link_done :=
  repeat split; auto; try (now left); try (right; now auto).

Lemma dedup_step_reasons done st a :
  dedup_reasons cfg done st ->
  dedup_reasons cfg (a :: done) (dedup_step cfg st a).
Proof.
  intros (J1 & J2 & J3).
  assert (Hold : forall kept',
            (forall y, In y (unique st) -> In y kept') ->
            forall x, In x done -> linked cfg (a :: done) kept' x).
  { intros kept' Hk x Hx.
    apply (linked_mono done _ (unique st)); auto. intros z Hz. now right. }
  assert (Hurl : forall kept' u,
            (forall y, In y (unique st) -> In y kept') ->
            u ∈ seen_urls st ->
            exists z y,
              In z (a :: done) /\ url z = u /\ In y kept'
              /\ (y = z \/ (CHECK_DUPLICATES_BY_TITLE cfg = true
                            /\ content_hash y = content_hash z))).
  { intros kept' u Hk Hu. destruct (J2 u Hu) as (z & y & Hz & E & Hy & H).
    exists z, y. repeat split; auto. now right. }
  assert (Hhash : forall kept' h,
            (forall y, In y (unique st) -> In y kept') ->
            h ∈ seen_hashes st ->
            exists y, In y kept' /\ content_hash y = h).
  { intros kept' h Hk Hh. destruct (J1 h Hh) as (y & Hy & E). eauto. }
  unfold dedup_reasons, dedup_step.
  destruct (CHECK_DUPLICATES_BY_URL cfg) eqn:U; cbn [andb].
  - case_bool_decide as Hu.
    + (* the URL is known *)
      split; [|split].
      * intros h Hh. now apply (Hhash (unique st)).
      * intros u Hu'. now apply (Hurl (unique st)).
      * intros x [<-|Hx]; [|now apply (Hold (unique st))].
        destruct (Hurl (unique st) (url a) (fun _ H => H) Hu)
          as (z & y & Hz & E & Hy & H).
        exists z, y. link_done.
    + destruct (CHECK_DUPLICATES_BY_TITLE cfg) eqn:T; cbn [andb].
      * case_bool_decide as Hh; cbn [unique seen_urls seen_hashes].
        -- (* the fingerprint is known *)
           destruct (Hhash (unique st) _ (fun _ H => H) Hh) as (y & Hy & E).
           split; [|split].
           ++ intros h Hh'. now apply (Hhash (unique st)).
           ++ intros u Hu'. apply elem_of_union in Hu' as [Hu'|Hu'];
                [|now apply (Hurl (unique st))].
              apply elem_of_singleton in Hu' as ->.
              exists a, y. link_done.
           ++ intros x [<-|Hx]; [|now apply (Hold (unique st))].
              exists a, y. link_done.
        -- (* kept *)
           assert (Hk : forall y, In y (unique st) -> In y (unique st ++ [a]))
             by (intros y Hy; apply in_app_iff; now left).
           assert (Ha : In a (unique st ++ [a]))
             by (apply in_app_iff; right; now left).
           split; [|split].
           ++ intros h Hh'. apply elem_of_union in Hh' as [Hh'|Hh'];
                [|now apply Hhash].
              apply elem_of_singleton in Hh' as ->. now exists a.
           ++ intros u Hu'. apply elem_of_union in Hu' as [Hu'|Hu'];
                [|now apply Hurl].
              apply elem_of_singleton in Hu' as ->.
              exists a, a. link_done.
           ++ intros x [<-|Hx]; [|now apply Hold].
              exists a, a. link_done.
      * (* kept, fingerprints unchecked *)
        cbn [unique seen_urls seen_hashes].
        assert (Hk : forall y, In y (unique st) -> In y (unique st ++ [a]))
          by (intros y Hy; apply in_app_iff; now left).
        assert (Ha : In a (unique st ++ [a]))
          by (apply in_app_iff; right; now left).
        split; [|split].
        -- intros h Hh'. now apply Hhash.
        -- intros u Hu'. apply elem_of_union in Hu' as [Hu'|Hu'];
             [|now apply Hurl].
           apply elem_of_singleton in Hu' as ->.
           exists a, a. link_done.
        -- intros x [<-|Hx]; [|now apply Hold].
           exists a, a. link_done.
  - destruct (CHECK_DUPLICATES_BY_TITLE cfg) eqn:T; cbn [andb].
    + case_bool_decide as Hh; cbn [unique seen_urls seen_hashes].
      * destruct (Hhash (unique st) _ (fun _ H => H) Hh) as (y & Hy & E).
        split; [|split].
        -- intros h Hh'. now apply (Hhash (unique st)).
        -- intros u Hu'. now apply (Hurl (unique st)).
        -- intros x [<-|Hx]; [|now apply (Hold (unique st))].
           exists a, y. link_done.
      * assert (Hk : forall y, In y (unique st) -> In y (unique st ++ [a]))
          by (intros y Hy; apply in_app_iff; now left).
        assert (Ha : In a (unique st ++ [a]))
          by (apply in_app_iff; right; now left).
        split; [|split].
        -- intros h Hh'. apply elem_of_union in Hh' as [Hh'|Hh'];
             [|now apply Hhash].
           apply elem_of_singleton in Hh' as ->. now exists a.
        -- intros u Hu'. now apply Hurl.
        -- intros x [<-|Hx]; [|now apply Hold].
           exists a, a. link_done.
    + cbn [unique seen_urls seen_hashes].
      assert (Hk : forall y, In y (unique st) -> In y (unique st ++ [a]))
        by (intros y Hy; apply in_app_iff; now left).
      split; [|split].
      * intros h Hh'. now apply Hhash.
      * intros u Hu'. now apply Hurl.
      * intros x [<-|Hx]; [|now apply Hold].
        exists a, a. link_done.
        apply in_app_iff. right. now left.
Qed.

Lemma dedup_fold_reasons xs : forall done st,
  dedup_reasons cfg done st ->
  dedup_reasons cfg (rev xs ++ done) (fold_left (dedup_step cfg) xs st).
Proof.
  induction xs as [|a xs IH]; intros done st J; [exact J|].
  cbn [fold_left rev]. rewrite <- app_assoc. cbn [app].
  apply IH. now apply dedup_step_reasons.
Qed.

(** X28.  No article is dropped without a reason: every article of the
    input is linked to a kept one -- it is kept itself, or a kept article
    has its fingerprint, or an article of the input with its URL is kept or
    has the fingerprint of a kept one.  The last case is the one where an
    article is dropped for the URL of an article that was itself dropped. *)
Theorem every_dropped_article_has_a_reason xs x :
  In x xs -> linked cfg xs (deduplicate_articles cfg xs) x.
Proof.
  intros Hx.
  assert (J : dedup_reasons cfg (rev xs ++ [])
                (fold_left (dedup_step cfg) xs dedup_start)).
  { apply dedup_fold_reasons. split; [|split].
    - intros h Hh. now apply not_elem_of_empty in Hh.
    - intros u Hu. now apply not_elem_of_empty in Hu.
    - intros y []. }
  destruct J as (_ & _ & J3). rewrite app_nil_r in J3.
  apply (linked_mono (rev xs) _ (deduplicate_articles cfg xs)
           (deduplicate_articles cfg xs)); auto.
  - intros z Hz. now apply in_rev.
  - apply J3. now apply in_rev in Hx.
Qed.

End DedupReasons.

Lemma every_dropped_article_has_a_reason_witness :
  let a := Article_init 0 "a" "bc" "" "" None None None None None "en" None in
  let z := Article_init 0 "ab" "c" "" "" None None None None None "en" None in
  let x := Article_init 0 "z" "c" "" "" None None None None None "en" None in
  In x [a; z; x]
  /\ deduplicate_articles settings [a; z; x] = [a]
  /\ url x <> url a /\ content_hash x <> content_hash a
  /\ linked settings [a; z; x] (deduplicate_articles settings [a; z; x]) x.
Proof.
  intros a z x.
  assert (Hin : In x [a; z; x]) by (right; right; now left).
  split; [exact Hin|]. split; [vm_compute; reflexivity|].
  split; [discriminate|]. split; [vm_compute; discriminate|].
  exact (every_dropped_article_has_a_reason settings [a; z; x] x Hin).
Defined.

(** ** The polling-API connector and the age of an item *)

(** X29.  [NewsAPIScraper.scrape] applies no freshness window: an item that
    gives an article when read at one time gives an article, with the same
    title, URL and fingerprint, when read at any other time, however long
    after its publication, and [scrape] returns it. *)
Theorem api_scrape_has_no_freshness_window detect cat now now' item a :
  _parse_api_article detect cat now item = Ok (Some a) ->
  exists a',
    _parse_api_article detect cat now' item = Ok (Some a')
    /\ title a' = title a
    /\ url a' = url a
    /\ content_hash a' = content_hash a
    /\ api_scrape detect cat (ApiAnswer true [(now', item)]) = [a'].
Proof.
  unfold api_scrape, _scrape_top_headlines, parse_items.
  unfold _parse_api_article, bind, as_str. intros H.
  repeat split_match H.
  all: injection H as <-; eexists; repeat split; reflexivity.
Qed.

Lemma api_scrape_has_no_freshness_window_witness :
  stale settings forty_days 0
  /\ i_publishedAt old_item = Date 0
  /\ exists a',
       _parse_api_article detect_en None forty_days old_item = Ok (Some a')
       /\ title a' = "Rates rise"
       /\ url a' = "https://example.com/rates"
       /\ published_at a' = 0%Z
       /\ api_scrape detect_en None (ApiAnswer true [(forty_days, old_item)])
          = [a'].
Proof.
  split; [vm_compute; discriminate|]. split; [reflexivity|].
  assert (H : _parse_api_article detect_en None 0 old_item
              = Ok (Some (Article_init 0 "Rates rise"
                            "https://example.com/rates" "Rates rise again."
                            "Rates rise again." None (Some 0%Z)
                            (Some "bbc-news") None None "en" None)))
    by (vm_compute; reflexivity).
  destruct (api_scrape_has_no_freshness_window detect_en None 0 forty_days
              old_item _ H) as (a' & Hp & Ht & Hu & _ & Hs).
  exists a'. split; [exact Hp|]. split; [exact Ht|]. split; [exact Hu|].
  split; [|exact Hs].
  assert (E : _parse_api_article detect_en None forty_days old_item
              = Ok (Some old_article)) by (vm_compute; reflexivity).
  rewrite E in Hp. injection Hp as <-. reflexivity.
Defined.
